(** * export_invoice.py: the BILL invoice exporter

    A shallow embedding of [InvoiceExporter] (login, paginated listing,
    PDF download, PDF export with date-derived file names) and the
    properties its specification states about it.

    The file has four parts: the program, the vocabulary in which its
    properties are stated, the fixtures of the examples, and the proofs. *)

From Stdlib Require Import ZArith Ascii String List Lia.
From stdpp Require Import base option list strings pretty gmap fin_maps.

Local Open Scope string_scope.
Local Open Scope list_scope.

(** * Part I: the program *)

(** ** Python values

    The values the exporter reads out of decoded JSON.  It only ever
    tests such a value for truth ([not v]) and formats it ([str(v)], or
    an f-string field); [POther] stands for the remaining JSON values
    (floats, arrays, objects) through exactly these two observations. *)

Inductive pyval :=
| PNone
| PBool (b : bool)
| PInt (z : Z)
| PStr (s : string)
| POther (truth : bool) (text : string).

(** [bool(v)]. *)
Definition truthy (v : pyval) : bool :=
  match v with
  | PNone => false
  | PBool b => b
  | PInt z => negb (z =? 0)%Z
  | PStr s => negb (String.eqb s "")
  | POther t _ => t
  end.

(** [str(v)], which is also what an f-string field [{v}] renders. *)
Definition py_str (v : pyval) : string :=
  match v with
  | PNone => "None"
  | PBool true => "True"
  | PBool false => "False"
  | PInt z => pretty z
  | PStr s => s
  | POther _ t => t
  end.

(** A decoded JSON object whose members are read with [dict.get]. *)
Abbreviation pydict := (gmap string pyval).

(** [d.get(k)]: the member, [None] when the key is absent. *)
Definition get (d : pydict) (k : string) : pyval := default PNone (d !! k).

(** ** String primitives

    Strings are sequences of code points below 256. *)

Module Str.

(** [str.isspace] on one character (code points below 256). *)
Definition is_space (c : ascii) : bool :=
  let n := nat_of_ascii c in
  (((9 <=? n) && (n <=? 13)) || ((28 <=? n) && (n <=? 32))
   || (n =? 133) || (n =? 160))%nat.

Fixpoint lstrip (s : string) : string :=
  match s with
  | String c r => if is_space c then lstrip r else s
  | EmptyString => EmptyString
  end.

Fixpoint rstrip (s : string) : string :=
  match s with
  | String c r =>
      match rstrip r with
      | EmptyString => if is_space c then EmptyString else String c EmptyString
      | r' => String c r'
      end
  | EmptyString => EmptyString
  end.

(** [s.strip()]. *)
Definition strip (s : string) : string := rstrip (lstrip s).

(** [s.split(sep, 1)[0]] for a one-character [sep]: the part of [s]
    before the first [sep], all of [s] when there is none. *)
Fixpoint before (sep : ascii) (s : string) : string :=
  match s with
  | String c r => if Ascii.eqb c sep then EmptyString else String c (before sep r)
  | EmptyString => EmptyString
  end.

(** [s.replace(old, new)] for one-character [old] and [new]. *)
Fixpoint replace (old new : ascii) (s : string) : string :=
  match s with
  | String c r => String (if Ascii.eqb c old then new else c) (replace old new r)
  | EmptyString => EmptyString
  end.

(** The double quote character, as a string. *)
Definition dquote : string := String (ascii_of_nat 34) EmptyString.

End Str.

(** ** The outside world

    [requests], [print] and [Path.write_bytes] act on a world: the
    replies the network will deliver, and a log of every request issued,
    every line printed and every file written, in order, and what the
    file system will make of each write.  The body of a reply that
    arrives is a JSON object whose [results] member is absent or an
    array of objects: [resp.json()] and [results.extend] do not raise.
    Printing always succeeds. *)

Inductive http_method := GET | POST.

Record request := {
  req_method : http_method;
  req_url : string;
  req_headers : pydict;
  req_params : pydict;        (* the [params=] query parameters *)
  req_json : pydict;          (* the [json=] body *)
  req_timeout : Z }.

(** What [resp.json()] yields: a JSON object.  Its [results] member,
    when present, is an array of objects (the declared
    [List[Dict[str, Any]]]); every other member is a [pyval]. *)
Record data := {
  members : pydict;
  results_member : option (list pydict) }.

Record response := {
  http_error : option string;   (* [Some reason]: [raise_for_status] raises *)
  json : data;                  (* [resp.json()] *)
  content : list Byte.byte }.   (* [resp.content] *)

Inductive reply :=
| Unreachable (detail : string)  (* the call to [requests] itself raises *)
| Replies (resp : response).

(** The exceptions of a run: those of [requests], the [RuntimeError]s
    and [ValueError]s the program raises itself, and what the file
    system raises on a write ([ValueError] for a path holding a NUL,
    [OSError] and its subclasses for everything else). *)
Inductive exn :=
| RequestException (detail : string)
| HTTPError (reason : string)
| RuntimeError (msg : string)
| ValueError (msg : string)
| OSError (msg : string).

(** [out_dir / filename]. *)
Record path := { parent : string; name : string }.

(** [server n] is the reply to the [n]-th request of the run (counting
    from 0).  A method's requests are determined by the replies it has
    received, so a sequence of replies describes any deterministic
    server, including one whose cursor chain never ends.
    [disk n p] is what the file system raises, if anything, when the
    write that would make the run's [n]-th file goes to the path [p]. *)
Record world := {
  server : nat -> reply;
  disk : nat -> path -> option exn;
  sent : list request;
  stdout : list string;
  written : list (path * list Byte.byte) }.

(** A file system that accepts every write. *)
Definition writable : nat -> path -> option exn := fun _ _ => None.

(** ** The monad of the exporter's methods

    State, exceptions, and an [Unfinished] outcome for a [while True]
    loop that has not returned within the fuel given. *)

Inductive outcome (A : Type) :=
| Ok (a : A)
| Raise (e : exn)
| Unfinished.
Arguments Ok {A} a.
Arguments Raise {A} e.
Arguments Unfinished {A}.

Definition M (A : Type) : Type := world -> outcome A * world.

Definition ret {A} (a : A) : M A := fun w => (Ok a, w).

Definition bind {A B} (m : M A) (k : A -> M B) : M B :=
  fun w =>
    match m w with
    | (Ok a, w') => k a w'
    | (Raise e, w') => (Raise e, w')
    | (Unfinished, w') => (Unfinished, w')
    end.

Definition raise {A} (e : exn) : M A := fun w => (Raise e, w).

Definition unfinished {A} : M A := fun w => (Unfinished, w).

Notation "'let!' x ':=' m 'in' k" := (bind m (fun x => k))
  (at level 10, x name, m at level 100, k at level 200).

(** [requests.get] / [requests.post]: the request is issued and the
    world's next reply comes back, or the call raises (a transport
    failure, the timeout included). *)
Definition requests_send (r : request) : M response :=
  fun w =>
    let w' := {| server := server w; disk := disk w; sent := sent w ++ [r];
                 stdout := stdout w; written := written w |} in
    match server w (length (sent w)) with
    | Unreachable d => (Raise (RequestException d), w')
    | Replies resp => (Ok resp, w')
    end.

Definition requests_get (url : string) (headers params : pydict) (timeout : Z) : M response :=
  requests_send {| req_method := GET; req_url := url; req_headers := headers;
                   req_params := params; req_json := ∅; req_timeout := timeout |}.

Definition requests_post (url : string) (body : pydict) (timeout : Z) : M response :=
  requests_send {| req_method := POST; req_url := url; req_headers := ∅;
                   req_params := ∅; req_json := body; req_timeout := timeout |}.

Definition raise_for_status (resp : response) : M unit :=
  match http_error resp with
  | Some reason => raise (HTTPError reason)
  | None => ret tt
  end.

Definition print (line : string) : M unit :=
  fun w => (Ok tt, {| server := server w; disk := disk w; sent := sent w;
                      stdout := stdout w ++ [line]; written := written w |}).

(** [p.write_bytes(b)]: the file system raises, or the file is written. *)
Definition write_bytes (p : path) (b : list Byte.byte) : M unit :=
  fun w =>
    match disk w (length (written w)) p with
    | Some e => (Raise e, w)
    | None => (Ok tt, {| server := server w; disk := disk w; sent := sent w;
                         stdout := stdout w; written := written w ++ [(p, b)] |})
    end.

(** ** class InvoiceExporter *)

Record InvoiceExporter := {
  base_url : string;
  pdf_base_url : string;
  dev_key : string;
  session_id : pyval }.

Definition BASE_URL : string := "https://gateway.prod.bill.com/connect".
Definition PDF_BASE_URL : string := "https://api.bill.com".

Section Login.

(** [str(data)] for a decoded JSON object, as the f-string of [_login]
    renders it. *)
Variable data_str : data -> string.

Definition _login (self_base_url username password org_id dev_key : string) : M pyval :=
  let url := self_base_url +:+ "/v3/login" in
  let login : pydict :=
    <["username" := PStr username]>
    (<["password" := PStr password]>
    (<["organizationId" := PStr org_id]>
    {["devKey" := PStr dev_key]})) in
  let! resp := requests_post url login 60 in
  let! _ := raise_for_status resp in
  let data := json resp in
  let session_id := get (members data) "sessionId" in
  if negb (truthy session_id)
  then raise (RuntimeError ("Login succeeded but sessionId missing. Response: " +:+ data_str data))
  else ret session_id.

(** [InvoiceExporter.__init__]. *)
Definition init (username password org_id dev_key : string) : M InvoiceExporter :=
  let! sid := _login BASE_URL username password org_id dev_key in
  ret {| base_url := BASE_URL; pdf_base_url := PDF_BASE_URL;
         dev_key := dev_key; session_id := sid |}.

End Login.

(** *** list_invoices_created_between *)

(** The filter expression of the listing:
    [createdTime:gte:<q>start<q>,createdTime:lt:<q>end<q>], with [<q>]
    the double quote. *)
Definition filter_expr (start_date end_date : string) : string :=
  "createdTime:gte:" +:+ Str.dquote +:+ start_date +:+ Str.dquote
  +:+ ",createdTime:lt:" +:+ Str.dquote +:+ end_date +:+ Str.dquote.

Definition list_headers (self : InvoiceExporter) : pydict :=
  <["content-type" := PStr "application/json"]>
  (<["sessionId" := session_id self]>
  {["devKey" := PStr (dev_key self)]}).

(** [params = {"page": next_page} if next_page else {"filters": filters}]. *)
Definition list_params (filters : string) (next_page : pyval) : pydict :=
  if truthy next_page then {["page" := next_page]} else {["filters" := PStr filters]}.

(** The [while True] loop of [list_invoices_created_between], one
    iteration per unit of fuel. *)
Fixpoint list_loop (fuel : nat) (url : string) (headers : pydict) (filters : string)
    (results : list pydict) (next_page : pyval) : M (list pydict) :=
  match fuel with
  | O => unfinished
  | S fuel' =>
      let params := list_params filters next_page in
      let! resp := requests_get url headers params 60 in
      let! _ := raise_for_status resp in
      let data := json resp in
      let results := results ++ default [] (results_member data) in
      let next_page := get (members data) "nextPage" in
      if negb (truthy next_page)
      then ret results
      else list_loop fuel' url headers filters results next_page
  end.

Definition list_invoices_created_between (fuel : nat) (self : InvoiceExporter)
    (start_date end_date : string) : M (list pydict) :=
  let url := base_url self +:+ "/v3/invoices" in
  let headers := list_headers self in
  let filters := filter_expr start_date end_date in
  list_loop fuel url headers filters [] PNone.

(** *** get_invoice_pdf *)

Definition get_invoice_pdf (self : InvoiceExporter) (invoice_id : pyval) : M (list Byte.byte) :=
  let url := pdf_base_url self +:+ "/Invoice2PdfServlet" in
  let headers : pydict := {["sessionId" := session_id self]} in
  let params : pydict := <["Id" := invoice_id]> {["PresentationType" := PStr "PDF"]} in
  let! resp := requests_get url headers params 60 in
  let! _ := raise_for_status resp in
  ret (content resp).

(** *** export_pdfs *)

(** The three lines that turn [invoice_date] into [base_name]. *)
Definition base_name_of (invoice_date : pyval) : string :=
  let raw := Str.strip (py_str invoice_date) in
  let raw := Str.before " " (Str.before "T" raw) in
  Str.replace ":" "-" (Str.replace "/" "-" raw).

(** [f"{base_name}.pdf" if count == 0 else f"{base_name}-{invoice_id}.pdf"]. *)
Definition filename_of (base_name : string) (count : nat) (invoice_id : pyval) : string :=
  if (count =? 0)%nat then base_name +:+ ".pdf"
  else base_name +:+ "-" +:+ py_str invoice_id +:+ ".pdf".

Definition skip_notice (invoice_id : pyval) : string :=
  "Skipping invoice " +:+ py_str invoice_id +:+ " (missing invoiceDate).".

(** One iteration of the [for invoice in invoices] loop; [seen] is the
    loop's dictionary, threaded through. *)
Definition export_step (self : InvoiceExporter) (out_dir : string)
    (seen : gmap string nat) (invoice : pydict) : M (gmap string nat) :=
  let invoice_id := get invoice "id" in
  if negb (truthy invoice_id) then ret seen
  else
    let invoice_date := get invoice "invoiceDate" in
    if negb (truthy invoice_date) then
      let! _ := print (skip_notice invoice_id) in
      ret seen
    else
      let! pdf := get_invoice_pdf self invoice_id in
      let base_name := base_name_of invoice_date in
      let count := default 0%nat (seen !! base_name) in
      let seen := <[base_name := (count + 1)%nat]> seen in
      let filename := filename_of base_name count invoice_id in
      let pdf_path := {| parent := out_dir; name := filename |} in
      let! _ := write_bytes pdf_path pdf in
      ret seen.

Fixpoint export_loop (self : InvoiceExporter) (out_dir : string)
    (seen : gmap string nat) (invoices : list pydict) : M (gmap string nat) :=
  match invoices with
  | [] => ret seen
  | invoice :: rest =>
      let! seen' := export_step self out_dir seen invoice in
      export_loop self out_dir seen' rest
  end.

Definition export_pdfs (self : InvoiceExporter) (invoices : list pydict)
    (out_dir : string) : M unit :=
  let! _ := export_loop self out_dir ∅ invoices in
  ret tt.

(** ** main *)

(** UTF-8 of one code point below 256, and of a string. *)
Definition utf8_char (c : ascii) : list Byte.byte :=
  let n := nat_of_ascii c in
  if (n <? 128)%nat then [byte_of_ascii c]
  else [byte_of_ascii (ascii_of_nat (192 + n / 64));
        byte_of_ascii (ascii_of_nat (128 + n mod 64))].

Fixpoint utf8 (s : string) : list Byte.byte :=
  match s with
  | String c r => utf8_char c ++ utf8 r
  | EmptyString => []
  end.

(** [p.write_text(text, encoding="utf-8")]. *)
Definition write_text (p : path) (text : string) : M unit := write_bytes p (utf8 text).

(** [out_dir.mkdir(parents=True, exist_ok=True)]: the world keeps no
    record of directories, and creating one always succeeds. *)
Definition mkdir (dir : string) : M unit := ret tt.

(** [sep.join(l)]. *)
Fixpoint join (sep : string) (l : list string) : string :=
  match l with
  | [] => ""
  | [x] => x
  | x :: rest => x +:+ sep +:+ join sep rest
  end.

(** [os.getenv(k, dflt)] in the environment [env] (after [load_dotenv]). *)
Definition getenv (env : gmap string string) (k dflt : string) : string :=
  default dflt (env !! k).

(** What [parser.parse_args()] returns. *)
Record Namespace := {
  args_start_date : string;
  args_end_date : string;
  args_out_dir : string }.

(** The exception that ends [main] when nothing catches it. *)
Inductive uncaught :=
| Exn (e : exn).

Inductive ending :=
| Finished
| Uncaught (e : uncaught)
| Running.   (* the listing loop has not returned within the fuel *)

Definition ending_of {A} (o : outcome A) : ending :=
  match o with
  | Ok _ => Finished
  | Raise e => Uncaught (Exn e)
  | Unfinished => Running
  end.

Section Main.

(** The library functions [main] calls, taken as they are:
    [str(data)] of a decoded JSON object;
    [datetime.strptime(s, "%m-%d-%Y")], which raises a [ValueError] with
    a message or yields a datetime at midnight, here the number of its
    day (datetimes at midnight compare as their days do);
    [dt.strftime("%Y-%m-%d")];
    [json.dumps(invoices, indent=2)];
    [str(out_path)]. *)
Variable data_str : data -> string.
Variable strptime : string -> string + Z.
Variable strftime : Z -> string.
Variable json_dumps : list pydict -> string.
Variable path_str : path -> string.

Definition main (fuel : nat) (args : Namespace) (env : gmap string string)
    : world -> ending * world :=
  fun w =>
    match strptime (args_start_date args) with
    | inl msg => (Uncaught (Exn (ValueError msg)), w)
    | inr start_dt =>
    match strptime (args_end_date args) with
    | inl msg => (Uncaught (Exn (ValueError msg)), w)
    | inr end_dt =>
      if (start_dt >=? end_dt)%Z
      then (Uncaught (Exn (ValueError "start-date must be earlier than end-date.")), w)
      else
        let start_date := strftime start_dt in
        let end_date := strftime end_dt in
        let username := getenv env "BILL_USERNAME" "" in
        let password := getenv env "BILL_PASSWORD" "" in
        let org_id := getenv env "BILL_ORG_ID" "" in
        let dev_key := getenv env "BILL_DEV_KEY" "" in
        let required :=
          [("BILL_USERNAME", username); ("BILL_PASSWORD", password);
           ("BILL_ORG_ID", org_id); ("BILL_DEV_KEY", dev_key)] in
        let missing :=
          map fst (List.filter (fun kv => String.eqb (snd kv) "") required) in
        match missing with
        | _ :: _ =>
            (Uncaught (Exn (RuntimeError
               ("Missing env vars in .env: " +:+ join ", " missing))), w)
        | [] =>
            let run :=
              (let! exporter := init data_str username password org_id dev_key in
               let! invoices :=
                 list_invoices_created_between fuel exporter start_date end_date in
               let out_dir := args_out_dir args in
               let! _ := mkdir out_dir in
               let out_path :=
                 {| parent := out_dir;
                    name := "bill_invoices_" +:+ start_date +:+ "_to_" +:+ end_date
                            +:+ ".json" |} in
               let! _ := write_text out_path (json_dumps invoices) in
               let! _ := export_pdfs exporter invoices out_dir in
               let! _ := print ("Fetched " +:+ pretty (length invoices)
                                +:+ " invoices in from " +:+ start_date
                                +:+ " to " +:+ end_date +:+ ".") in
               print ("Wrote: " +:+ path_str out_path)) w in
            (ending_of (fst run), snd run)
        end
    end
    end.

End Main.

(** * Part II: the vocabulary of the properties *)

(** ** Pages, chains and request logs *)

Definition next_page_of (d : data) : pyval := get (members d) "nextPage".

Definition records_of (d : data) : list pydict := default [] (results_member d).

(** The server delivers the pages [ps], each with a success status, as
    its replies number [n], [n+1], ... *)
Definition serves (srv : nat -> reply) (n : nat) (ps : list data) : Prop :=
  forall i d, ps !! i = Some d ->
    exists resp, srv (n + i) = Replies resp /\ http_error resp = None /\ json resp = d.

(** A request of the listing loop fails: the transport raises, or the
    reply has an error status. *)
Definition fails_with (r : reply) (e : exn) : Prop :=
  match r with
  | Unreachable d => e = RequestException d
  | Replies resp => exists reason, http_error resp = Some reason /\ e = HTTPError reason
  end.

Definition list_request (url : string) (headers params : pydict) : request :=
  {| req_method := GET; req_url := url; req_headers := headers;
     req_params := params; req_json := ∅; req_timeout := 60 |}.

(** The requests the loop issues along a chain of pages, starting with
    [next_page] as its cursor variable. *)
Fixpoint chain_requests (url : string) (headers : pydict) (filters : string)
    (next_page : pyval) (ps : list data) : list request :=
  match ps with
  | [] => []
  | d :: rest =>
      list_request url headers (list_params filters next_page)
      :: chain_requests url headers filters (next_page_of d) rest
  end.

Definition log_requests (w : world) (rs : list request) : world :=
  {| server := server w; disk := disk w; sent := sent w ++ rs;
     stdout := stdout w; written := written w |}.

(** The shape of the requests the loop issues, whatever the server does
    and whatever the fuel: the first carries [list_params] of the
    cursor variable; each later one is a [page] request carrying the
    cursor of the reply before it. *)
Definition follows_cursors (srv : nat -> reply) (n : nat) (url : string)
    (headers : pydict) (reqs : list request) : Prop :=
  forall i r, reqs !! (S i) = Some r ->
    exists resp, srv (n + i) = Replies resp /\ http_error resp = None
      /\ truthy (next_page_of (json resp)) = true
      /\ r = list_request url headers {["page" := next_page_of (json resp)]}.

(** Every reply from number [n] on is a success that carries a cursor. *)
Definition endless (srv : nat -> reply) (n : nat) : Prop :=
  forall i, exists resp, srv (n + i) = Replies resp /\ http_error resp = None
    /\ truthy (next_page_of (json resp)) = true.

(** ** Login *)

Definition login_error_prefix : string :=
  "Login succeeded but sessionId missing. Response: ".

(** The request of [_login]. *)
Definition login_request (url username password org_id key : string) : request :=
  {| req_method := POST; req_url := url +:+ "/v3/login"; req_headers := ∅;
     req_params := ∅;
     req_json := <["username" := PStr username]>
                 (<["password" := PStr password]>
                 (<["organizationId" := PStr org_id]>
                 {["devKey" := PStr key]}));
     req_timeout := 60 |}.

(** ** Exported records and what a run leaves behind *)

(** The record passes both skip checks. *)
Definition exported (r : pydict) : bool :=
  truthy (get r "id") && truthy (get r "invoiceDate").

(** The file names a run wrote, in order. *)
Definition names_written (w : world) : list string :=
  map (fun f => name (fst f)) (written w).

Definition log_line (w : world) (line : string) : world :=
  {| server := server w; disk := disk w; sent := sent w;
     stdout := stdout w ++ [line]; written := written w |}.


Definition good_reply (r : reply) : Prop :=
  exists resp, r = Replies resp /\ http_error resp = None.

(** The file system accepts the next [count] writes, wherever they go. *)
Definition accepts (dsk : nat -> path -> option exn) (n count : nat) : Prop :=
  forall i p, i < count -> dsk (n + i) p = None.

(** ** File names, as the specification words them *)

(** The part of [s] before its first character satisfying [stop]. *)
Fixpoint before_any (stop : ascii -> bool) (s : string) : string :=
  match s with
  | String c r => if stop c then EmptyString else String c (before_any stop r)
  | EmptyString => EmptyString
  end.

Definition is_time_separator (c : ascii) : bool :=
  Ascii.eqb c "T" || Ascii.eqb c " ".

Definition is_path_unsafe (c : ascii) : bool :=
  Ascii.eqb c "/" || Ascii.eqb c ":".

Fixpoint replace_unsafe (s : string) : string :=
  match s with
  | String c r => String (if is_path_unsafe c then "-"%char else c) (replace_unsafe r)
  | EmptyString => EmptyString
  end.

(** The base name as the filename claim words it: the date string cut
    before the [T] or the first space, unsafe characters replaced. *)
Definition claimed_base_name (date : string) : string :=
  replace_unsafe (before_any is_time_separator date).

(** The same, on the date string with surrounding whitespace removed. *)
Definition stripped_base_name (date : string) : string :=
  claimed_base_name (Str.strip date).

(** The collision policy in the specification's words: going through
    the records in input order, the first exported record producing a
    base name gets [<base>.pdf], every later one [<base>-<id>.pdf].
    [earlier] holds the base names produced so far. *)
Fixpoint named_by (base : string -> string) (earlier : list string)
    (recs : list pydict) : list string :=
  match recs with
  | [] => []
  | r :: rest =>
      if exported r then
        let b := base (py_str (get r "invoiceDate")) in
        (if bool_decide (b ∈ earlier)
         then b +:+ "-" +:+ py_str (get r "id") +:+ ".pdf"
         else b +:+ ".pdf")
        :: named_by base (b :: earlier) rest
      else named_by base earlier rest
  end.

(** The names the code's loop assigns, as a function of its registry. *)
Fixpoint assigned_names (seen : gmap string nat) (invoices : list pydict) : list string :=
  match invoices with
  | [] => []
  | r :: rest =>
      if exported r then
        let b := base_name_of (get r "invoiceDate") in
        let count := default 0 (seen !! b) in
        filename_of b count (get r "id")
        :: assigned_names (<[b := count + 1]> seen) rest
      else assigned_names seen rest
  end.

(** The registry counts a base name exactly when it was produced before. *)
Definition registry_of (seen : gmap string nat) (earlier : list string) : Prop :=
  forall b, default 0 (seen !! b) = 0 <-> b ∉ earlier.

(** ** Fetches, files and notices of an export run *)

(** The request of [get_invoice_pdf] for one identifier. *)
Definition pdf_request (self : InvoiceExporter) (invoice_id : pyval) : request :=
  {| req_method := GET; req_url := pdf_base_url self +:+ "/Invoice2PdfServlet";
     req_headers := {["sessionId" := session_id self]};
     req_params := <["Id" := invoice_id]> {["PresentationType" := PStr "PDF"]};
     req_json := ∅; req_timeout := 60 |}.

(** [pdf_path] for the record [r] when the registry is [seen]. *)
Definition target (dir : string) (seen : gmap string nat) (r : pydict) : path :=
  {| parent := dir;
     name := filename_of (base_name_of (get r "invoiceDate"))
               (default 0 (seen !! base_name_of (get r "invoiceDate")))
               (get r "id") |}.

(** The record has an identifier and no usable date: it is skipped with
    a notice. *)
Definition undated (r : pydict) : bool :=
  truthy (get r "id") && negb (truthy (get r "invoiceDate")).



(** How many exported records of [l] produce the base name [b]. *)
Definition occurrences (b : string) (l : list pydict) : nat :=
  length (List.filter
            (fun r => exported r && String.eqb (base_name_of (get r "invoiceDate")) b) l).

(** The character [c] occurs in [s]. *)
Fixpoint contains (c : ascii) (s : string) : bool :=
  match s with
  | String a r => Ascii.eqb a c || contains c r
  | EmptyString => false
  end.

(** ** The run of main *)

(** [out_dir / f"bill_invoices_{start_date}_to_{end_date}.json"]. *)
Definition metadata_path (out_dir start_date end_date : string) : path :=
  {| parent := out_dir;
     name := "bill_invoices_" +:+ start_date +:+ "_to_" +:+ end_date +:+ ".json" |}.

Definition credentials : list string :=
  ["BILL_USERNAME"; "BILL_PASSWORD"; "BILL_ORG_ID"; "BILL_DEV_KEY"].

(** The credentials that are unset or empty, in the order [main] names them. *)
Definition missing_vars (env : gmap string string) : list string :=
  List.filter (fun k => String.eqb (getenv env k "") "") credentials.

(** * Part III: fixtures *)

Definition ok_response (d : data) (c : list Byte.byte) : response :=
  {| http_error := None; json := d; content := c |}.

Definition page (rs : list pydict) (next : option pyval) : data :=
  {| members := match next with Some c => {["nextPage" := c]} | None => ∅ end;
     results_member := Some rs |}.

Definition no_data : data := {| members := ∅; results_member := None |}.

(** A server that answers every request with the same PDF bytes. *)
Definition pdf_server (n : nat) : reply :=
  Replies (ok_response no_data [Byte.x25; Byte.x50; Byte.x44; Byte.x46]).

Definition world_of (srv : nat -> reply) : world :=
  {| server := srv; disk := writable; sent := []; stdout := []; written := [] |}.

Definition exporter0 : InvoiceExporter :=
  {| base_url := BASE_URL; pdf_base_url := PDF_BASE_URL;
     dev_key := "dev"; session_id := PStr "sess" |}.

Definition invoice_of (id date : string) : pydict :=
  <["id" := PStr id]> {["invoiceDate" := PStr date]}.

(** A two-page listing followed by an unreachable network. *)
Definition two_pages (n : nat) : reply :=
  match n with
  | 0 => Replies (ok_response
           (page [invoice_of "A" "2024-01-05"] (Some (PStr "cursor-1"))) [])
  | 1 => Replies (ok_response
           (page [invoice_of "B" "2024-01-05"; invoice_of "C" "2024-01-06"] None) [])
  | _ => Unreachable "connection refused"
  end.

(** One good page, then an error status. *)
Definition page_then_error (n : nat) : reply :=
  match n with
  | 0 => Replies (ok_response
           (page [invoice_of "A" "2024-01-05"] (Some (PStr "cursor-1"))) [])
  | _ => Replies {| http_error := Some "500 Server Error"; json := no_data; content := [] |}
  end.


Definition good_session_body : data :=
  {| members := {["sessionId" := PStr "s-123"]}; results_member := None |}.

Definition login_server (d : data) (n : nat) : reply := Replies (ok_response d []).

(** A date with a space in front of it. *)
Definition padded_invoice : pydict := invoice_of "A" " 2024-01-05".

(** A server whose every page carries a cursor. *)
Definition endless_server (n : nat) : reply :=
  Replies (ok_response (page [invoice_of "A" "2024-01-05"] (Some (PStr "more"))) []).

(** One PDF, then an error status for every later request. *)
Definition pdf_then_error (n : nat) : reply :=
  match n with
  | 0 => Replies (ok_response no_data [Byte.x25; Byte.x50; Byte.x44; Byte.x46])
  | _ => Replies {| http_error := Some "404 Not Found"; json := no_data; content := [] |}
  end.


(** A login reply with an error status whose body nevertheless holds a
    session identifier. *)
Definition rejected_login (n : nat) : reply :=
  Replies {| http_error := Some "401 Unauthorized"; json := good_session_body;
             content := [] |}.

(** Stand-ins for the library functions of [main], defined on three dates. *)
Definition toy_strptime (s : string) : string + Z :=
  if String.eqb s "01-01-2024" then inr 738886%Z
  else if String.eqb s "02-01-2024" then inr 738917%Z
  else inl ("time data '" +:+ s +:+ "' does not match format '%m-%d-%Y'").

Definition toy_strftime (d : Z) : string :=
  if (d =? 738886)%Z then "2024-01-01"
  else if (d =? 738917)%Z then "2024-02-01"
  else "0001-01-01".

Definition toy_dumps (l : list pydict) : string :=
  "[" +:+ pretty (length l) +:+ " records]".

Definition toy_path_str (p : path) : string := parent p +:+ "/" +:+ name p.

Definition toy_data_str (d : data) : string := "{...}".

Definition full_env : gmap string string :=
  <["BILL_USERNAME" := "u"]> (<["BILL_PASSWORD" := "p"]>
  (<["BILL_ORG_ID" := "008"]> {["BILL_DEV_KEY" := "k"]})).

(** The password is set to the empty string, the developer key is unset. *)
Definition partial_env : gmap string string :=
  <["BILL_USERNAME" := "u"]> (<["BILL_PASSWORD" := ""]> {["BILL_ORG_ID" := "008"]}).

Definition january : Namespace :=
  {| args_start_date := "01-01-2024"; args_end_date := "02-01-2024";
     args_out_dir := "invoices" |}.

(** A whole run: the login, a two-page listing (one record without a
    date), then the PDFs. *)
Definition full_run_server (n : nat) : reply :=
  match n with
  | 0 => Replies (ok_response good_session_body [])
  | 1 => Replies (ok_response
           (page [invoice_of "A" "2024-01-05"] (Some (PStr "cursor-1"))) [])
  | 2 => Replies (ok_response
           (page [ {["id" := PStr "B"]} ; invoice_of "C" "2024-01-05"] None) [])
  | _ => Replies (ok_response no_data [Byte.x25; Byte.x50; Byte.x44; Byte.x46])
  end.

(** A directory without subdirectories: a write to a name holding a
    slash is refused. *)
Definition flat_dir (n : nat) (p : path) : option exn :=
  if contains "/" (name p) then Some (OSError "No such file or directory") else None.

(** * Part IV: proofs *)

(** ** The model on the specification's examples *)

Example strip_ex : Str.strip "  2024-01-05 10:00 " = "2024-01-05 10:00".
Proof. reflexivity. Qed.

Example before_ex : Str.before " " (Str.before "T" "2024-01-05T10:00:00Z") = "2024-01-05".
Proof. reflexivity. Qed.

Example py_str_ex : py_str (PInt (-42)) = "-42".
Proof. reflexivity. Qed.

(** Property 4 of the specification's test list. *)
Example collision_policy_ex :
  names_written (snd (export_pdfs exporter0
     [invoice_of "A" "2024-01-05"; invoice_of "B" "2024-01-05T10:00:00Z";
      invoice_of "C" "2024-01-06"] "out" (world_of pdf_server)))
  = ["2024-01-05.pdf"; "2024-01-05-B.pdf"; "2024-01-06.pdf"].
Proof. vm_compute. reflexivity. Qed.

(** Property 9 of the specification's test list: two records with the
    same date; the second one's file carries its identifier. *)
Example end_to_end_ex :
  export_pdfs exporter0 [invoice_of "X" "2024-03-01"; invoice_of "Y" "2024-03-01"]
    "out" (world_of pdf_server)
  = (Ok tt,
     {| server := pdf_server; disk := writable;
        sent := [list_request (PDF_BASE_URL +:+ "/Invoice2PdfServlet")
                   {["sessionId" := PStr "sess"]}
                   (<["Id" := PStr "X"]> {["PresentationType" := PStr "PDF"]});
                 list_request (PDF_BASE_URL +:+ "/Invoice2PdfServlet")
                   {["sessionId" := PStr "sess"]}
                   (<["Id" := PStr "Y"]> {["PresentationType" := PStr "PDF"]})];
        stdout := [];
        written := [({| parent := "out"; name := "2024-03-01.pdf" |},
                     [Byte.x25; Byte.x50; Byte.x44; Byte.x46]);
                    ({| parent := "out"; name := "2024-03-01-Y.pdf" |},
                     [Byte.x25; Byte.x50; Byte.x44; Byte.x46])] |}).
Proof. reflexivity. Qed.

(** The two requests of a two-page listing: the filter first, then the
    cursor alone. *)
Example two_pages_requests_ex :
  map req_params
    (sent (snd (list_invoices_created_between 5 exporter0 "2024-01-01" "2024-02-01"
                  (world_of two_pages))))
  = [ {["filters" := PStr ("createdTime:gte:" +:+ Str.dquote +:+ "2024-01-01" +:+ Str.dquote
                           +:+ ",createdTime:lt:" +:+ Str.dquote +:+ "2024-02-01"
                           +:+ Str.dquote)]};
      {["page" := PStr "cursor-1"]} ].
Proof. reflexivity. Qed.

(** A cursor chain that never ends keeps the loop going: after fifty
    iterations the call has not returned. *)
Example endless_chain_ex :
  fst (list_invoices_created_between 50 exporter0 "2024-01-01" "2024-02-01"
         (world_of (fun _ => Replies (ok_response (page [] (Some (PStr "again"))) []))))
  = Unfinished.
Proof. vm_compute. reflexivity. Qed.

(** The notice printed for a record without a date. *)
Example skip_notice_ex :
  stdout (snd (export_pdfs exporter0 [ {["id" := PStr "A"]} ] "out" (world_of pdf_server)))
  = ["Skipping invoice A (missing invoiceDate)."].
Proof. reflexivity. Qed.

(** ** The paginated lister *)

Lemma log_requests_nil w : log_requests w [] = w.
Proof. destruct w; unfold log_requests; simpl. by rewrite app_nil_r. Qed.

Lemma log_requests_app w rs1 rs2 :
  log_requests (log_requests w rs1) rs2 = log_requests w (rs1 ++ rs2).
Proof. unfold log_requests; simpl. by rewrite app_assoc. Qed.

Lemma chain_requests_length url h f np ps :
  length (chain_requests url h f np ps) = length ps.
Proof. revert np; induction ps as [|d ps IH]; intros np; simpl; [done|]. by rewrite IH. Qed.

Lemma serves_cons srv n d ps :
  serves srv n (d :: ps) ->
  (exists resp, srv n = Replies resp /\ http_error resp = None /\ json resp = d)
  /\ serves srv (S n) ps.
Proof.
  intros H; split.
  - destruct (H 0 d eq_refl) as (resp & Hs & He & Hj).
    exists resp. by rewrite Nat.add_0_r in Hs.
  - intros i d' Hi. destruct (H (S i) d' Hi) as (resp & Hs & He & Hj).
    exists resp. by rewrite Nat.add_succ_r in Hs.
Qed.

(** One successful iteration of the loop body's request. *)
Lemma requests_get_replies url h p w resp :
  server w (length (sent w)) = Replies resp ->
  requests_get url h p 60 w = (Ok resp, log_requests w [list_request url h p]).
Proof. intros H. unfold requests_get, requests_send. by rewrite H. Qed.

Lemma list_loop_step fuel url h f acc np w resp :
  server w (length (sent w)) = Replies resp ->
  http_error resp = None ->
  list_loop (S fuel) url h f acc np w =
    let w' := log_requests w [list_request url h (list_params f np)] in
    let acc' := acc ++ records_of (json resp) in
    if truthy (next_page_of (json resp))
    then list_loop fuel url h f acc' (next_page_of (json resp)) w'
    else (Ok acc', w').
Proof.
  intros Hs He. simpl. unfold bind at 1.
  rewrite (requests_get_replies _ _ _ _ _ Hs).
  unfold bind at 1, raise_for_status. rewrite He. simpl.
  unfold next_page_of, records_of.
  by destruct (truthy (get (members (json resp)) "nextPage")).
Qed.

(** The loop along a finite chain: every page but the last carries a
    cursor, the last carries none. *)
Lemma list_loop_chain ps : forall last fuel url h f acc np w,
  serves (server w) (length (sent w)) (ps ++ [last]) ->
  Forall (fun d => truthy (next_page_of d) = true) ps ->
  truthy (next_page_of last) = false ->
  length ps < fuel ->
  list_loop fuel url h f acc np w =
    (Ok (acc ++ concat (map records_of (ps ++ [last]))),
     log_requests w (chain_requests url h f np (ps ++ [last]))).
Proof.
  induction ps as [|d ps IH]; intros last fuel url h f acc np w Hsrv Hcur Hlast Hfuel.
  - destruct fuel as [|fuel]; [simpl in Hfuel; lia|].
    apply serves_cons in Hsrv as [(resp & Hs & He & Hj) _].
    rewrite (list_loop_step _ _ _ _ _ _ _ _ Hs He). simpl.
    rewrite Hj, Hlast. simpl. by rewrite app_nil_r.
  - destruct fuel as [|fuel]; [simpl in Hfuel; lia|].
    simpl in Hsrv. apply serves_cons in Hsrv as [(resp & Hs & He & Hj) Hrest].
    apply Forall_cons in Hcur as [Hd Hcur].
    rewrite (list_loop_step _ _ _ _ _ _ _ _ Hs He). simpl.
    rewrite Hj, Hd.
    rewrite (IH last fuel url h f _ _ _); try done.
    + rewrite log_requests_app. simpl. by rewrite <- app_assoc.
    + simpl. rewrite length_app. simpl.
      replace (length (sent w) + 1) with (S (length (sent w))) by lia. done.
    + simpl in Hfuel. lia.
Qed.

Lemma list_loop_fail_step fuel url h f acc np w e :
  fails_with (server w (length (sent w))) e ->
  list_loop (S fuel) url h f acc np w =
    (Raise e, log_requests w [list_request url h (list_params f np)]).
Proof.
  intros Hf. simpl. unfold bind at 1, requests_get, requests_send.
  destruct (server w (length (sent w))) as [d|resp]; simpl in Hf.
  - subst e. reflexivity.
  - destruct Hf as (reason & He & ->).
    unfold bind, raise_for_status. rewrite He. reflexivity.
Qed.

(** The loop along a chain whose request number [length ps] fails. *)
Lemma list_loop_broken_chain ps : forall fuel url h f acc np w e,
  serves (server w) (length (sent w)) ps ->
  Forall (fun d => truthy (next_page_of d) = true) ps ->
  fails_with (server w (length (sent w) + length ps)) e ->
  fst (list_loop fuel url h f acc np w) =
    if decide (length ps < fuel) then Raise e else Unfinished.
Proof.
  induction ps as [|d ps IH]; intros fuel url h f acc np w e Hsrv Hcur Hfail.
  - destruct fuel as [|fuel]; [done|].
    simpl in Hfail. rewrite Nat.add_0_r in Hfail.
    rewrite (list_loop_fail_step _ _ _ _ _ _ _ _ Hfail).
    cbn [fst length]. destruct (decide (0 < S fuel)); [done|lia].
  - destruct fuel as [|fuel]; [done|].
    apply serves_cons in Hsrv as [(resp & Hs & He & Hj) Hrest].
    apply Forall_cons in Hcur as [Hd Hcur].
    rewrite (list_loop_step _ _ _ _ _ _ _ _ Hs He). simpl.
    rewrite Hj, Hd.
    rewrite (IH fuel url h f _ _ _ e).
    + cbn [length].
      destruct (decide (length ps < fuel)), (decide (S (length ps) < S fuel));
        try done; lia.
    + simpl. rewrite length_app. simpl.
      replace (length (sent w) + 1) with (S (length (sent w))) by lia. done.
    + done.
    + simpl. rewrite length_app. simpl. simpl in Hfail.
      replace (length (sent w) + 1 + length ps)
        with (length (sent w) + S (length ps)) by lia. done.
Qed.

Lemma list_loop_trace fuel : forall url h f acc np w,
  exists reqs,
    snd (list_loop fuel url h f acc np w) = log_requests w reqs
    /\ (0 < fuel -> reqs !! 0 = Some (list_request url h (list_params f np)))
    /\ (fuel = 0 -> reqs = [])
    /\ follows_cursors (server w) (length (sent w)) url h reqs.
Proof.
  induction fuel as [|fuel IH]; intros url h f acc np w.
  - exists []. simpl. rewrite log_requests_nil.
    repeat split; try done; try lia; intros i r Hi; done.
  - set (r0 := list_request url h (list_params f np)).
    destruct (server w (length (sent w))) as [d|resp] eqn:Hs.
    { exists [r0]. rewrite (list_loop_fail_step _ _ _ _ _ _ _ (RequestException d)).
      - repeat split; try done; intros i r Hi; done.
      - by rewrite Hs. }
    destruct (http_error resp) as [reason|] eqn:He.
    { exists [r0]. rewrite (list_loop_fail_step _ _ _ _ _ _ _ (HTTPError reason)).
      - repeat split; try done; intros i r Hi; done.
      - rewrite Hs. simpl. eauto. }
    rewrite (list_loop_step _ _ _ _ _ _ _ _ Hs He). cbv zeta. fold r0.
    destruct (truthy (next_page_of (json resp))) eqn:Hc.
    + destruct (IH url h f (acc ++ records_of (json resp)) (next_page_of (json resp))
                  (log_requests w [r0])) as (reqs & Hw & H0 & Hz & Hrest).
      exists (r0 :: reqs). rewrite Hw, log_requests_app. simpl.
      repeat split; try done.
      intros [|i] r Hi; simpl in Hi.
      * exists resp. rewrite Nat.add_0_r. repeat split; try done.
        destruct fuel as [|fuel'].
        -- rewrite Hz in Hi by done. done.
        -- rewrite H0 in Hi by lia. injection Hi as <-.
           unfold list_params. by rewrite Hc.
      * destruct (Hrest i r Hi) as (resp' & Hs' & He' & Hc' & Hr).
        exists resp'. repeat split; try done.
        simpl in Hs'. rewrite length_app in Hs'. simpl in Hs'.
        replace (length (sent w) + S i) with (length (sent w) + 1 + i) by lia. done.
    + exists [r0]. repeat split; try done; intros i r Hi; done.
Qed.

Lemma length_concat_records (ps : list data) :
  length (concat (map records_of ps)) = sum_list_with (fun d => length (records_of d)) ps.
Proof.
  induction ps as [|d ps IH]; simpl; [done|].
  by rewrite length_app, IH.
Qed.

Lemma serves_nil srv n : serves srv n [].
Proof. intros i d Hi. done. Qed.

Lemma serves_cons_intro srv n resp d0 ps :
  srv n = Replies resp -> http_error resp = None -> json resp = d0 ->
  serves srv (S n) ps -> serves srv n (d0 :: ps).
Proof.
  intros Hs He Hj Hps [|i] d Hi; simpl in Hi.
  - injection Hi as <-. exists resp. by rewrite Nat.add_0_r.
  - destruct (Hps i d Hi) as (resp' & Hs' & He' & Hj').
    exists resp'. by rewrite Nat.add_succ_r.
Qed.

(** C1. Pagination completeness: along a finite chain of pages (every
    page but the last carries a cursor, the last carries none),
    [list_invoices_created_between] returns the concatenation of the
    pages' [results] arrays, in page order and within-page order; its
    length is the sum of the pages' record counts. *)
Theorem list_invoices_complete (self : InvoiceExporter) (start_date end_date : string)
    (w : world) (ps : list data) (last : data) (fuel : nat) :
  serves (server w) (length (sent w)) (ps ++ [last]) ->
  Forall (fun d => truthy (next_page_of d) = true) ps ->
  truthy (next_page_of last) = false ->
  length ps < fuel ->
  exists res,
    fst (list_invoices_created_between fuel self start_date end_date w) = Ok res
    /\ res = concat (map records_of (ps ++ [last]))
    /\ length res = sum_list_with (fun d => length (records_of d)) (ps ++ [last]).
Proof.
  intros Hsrv Hcur Hlast Hfuel.
  exists (concat (map records_of (ps ++ [last]))).
  unfold list_invoices_created_between.
  rewrite (list_loop_chain ps last fuel _ _ _ [] PNone w Hsrv Hcur Hlast Hfuel).
  split; [done|]. split; [done|]. apply length_concat_records.
Qed.

Lemma list_invoices_complete_witness :
  exists res,
    fst (list_invoices_created_between 5 exporter0 "2024-01-01" "2024-02-01"
           (world_of two_pages)) = Ok res
    /\ res = [invoice_of "A" "2024-01-05"; invoice_of "B" "2024-01-05";
              invoice_of "C" "2024-01-06"]
    /\ length res = 3.
Proof.
  apply (list_invoices_complete exporter0 "2024-01-01" "2024-02-01" (world_of two_pages)
           [page [invoice_of "A" "2024-01-05"] (Some (PStr "cursor-1"))]
           (page [invoice_of "B" "2024-01-05"; invoice_of "C" "2024-01-06"] None) 5).
  - simpl.
    eapply (serves_cons_intro _ 0); [reflexivity|reflexivity|reflexivity|].
    eapply (serves_cons_intro _ 1); [reflexivity|reflexivity|reflexivity|].
    apply serves_nil.
  - repeat constructor.
  - reflexivity.
  - simpl; lia.
Defined.

(** C2. Request shape: whatever the server answers and however long the
    loop runs, the first request's parameters are exactly the filter
    expression [createdTime:gte:"start",createdTime:lt:"end"] (no
    cursor), and the parameters of every later request are exactly the
    cursor [nextPage] of the reply before it (no filter). *)
Theorem list_invoices_request_shape (fuel : nat) (self : InvoiceExporter)
    (start_date end_date : string) (w : world) :
  exists reqs,
    snd (list_invoices_created_between fuel self start_date end_date w)
      = log_requests w reqs
    /\ (fuel = 0 \/ exists r, reqs !! 0 = Some r
          /\ req_params r = {["filters" := PStr (filter_expr start_date end_date)]}
          /\ req_params r !! "page" = None)
    /\ filter_expr start_date end_date =
         "createdTime:gte:" +:+ Str.dquote +:+ start_date +:+ Str.dquote
         +:+ ",createdTime:lt:" +:+ Str.dquote +:+ end_date +:+ Str.dquote
    /\ (forall i r, reqs !! (S i) = Some r ->
          exists resp, server w (length (sent w) + i) = Replies resp
            /\ truthy (next_page_of (json resp)) = true
            /\ req_params r = {["page" := next_page_of (json resp)]}
            /\ req_params r !! "filters" = None).
Proof.
  unfold list_invoices_created_between.
  destruct (list_loop_trace fuel (base_url self +:+ "/v3/invoices") (list_headers self)
              (filter_expr start_date end_date) [] PNone w)
    as (reqs & Hw & H0 & Hz & Hrest).
  exists reqs. split; [done|]. split; [|split; [done|]].
  - destruct fuel as [|fuel]; [by left|right].
    eexists. split; [apply H0; lia|]. split; [done|]. done.
  - intros i r Hi. destruct (Hrest i r Hi) as (resp & Hs & He & Hc & ->).
    exists resp. repeat split; try done.
Qed.

(** C3. Pagination termination: when the chain reaches a response with
    no cursor, the loop returns right after it, having issued exactly
    one request per page; more fuel changes nothing, so nothing further
    is requested. *)
Theorem list_invoices_terminates (self : InvoiceExporter) (start_date end_date : string)
    (w : world) (ps : list data) (last : data) :
  serves (server w) (length (sent w)) (ps ++ [last]) ->
  Forall (fun d => truthy (next_page_of d) = true) ps ->
  truthy (next_page_of last) = false ->
  exists res reqs,
    length reqs = length (ps ++ [last])
    /\ forall fuel, length ps < fuel ->
         list_invoices_created_between fuel self start_date end_date w
           = (Ok res, log_requests w reqs).
Proof.
  intros Hsrv Hcur Hlast.
  eexists _, _. split; [|intros fuel Hfuel; unfold list_invoices_created_between].
  2: apply (list_loop_chain ps last fuel _ _ _ [] PNone w Hsrv Hcur Hlast Hfuel).
  apply chain_requests_length.
Qed.

Lemma list_invoices_terminates_witness :
  exists res reqs,
    length reqs = 2
    /\ forall fuel, 1 < fuel ->
         list_invoices_created_between fuel exporter0 "2024-01-01" "2024-02-01"
           (world_of two_pages) = (Ok res, log_requests (world_of two_pages) reqs).
Proof.
  apply (list_invoices_terminates exporter0 "2024-01-01" "2024-02-01" (world_of two_pages)
           [page [invoice_of "A" "2024-01-05"] (Some (PStr "cursor-1"))]
           (page [invoice_of "B" "2024-01-05"; invoice_of "C" "2024-01-06"] None)).
  - simpl.
    eapply (serves_cons_intro _ 0); [reflexivity|reflexivity|reflexivity|].
    eapply (serves_cons_intro _ 1); [reflexivity|reflexivity|reflexivity|].
    apply serves_nil.
  - repeat constructor.
  - reflexivity.
Defined.

(** C4. All-or-nothing listing: when a request of the loop fails (the
    transport raises or the status is an error) after any number of
    good pages, the call raises that error; it never returns a
    collection, so the records of the earlier pages reach no caller. *)
Theorem list_invoices_all_or_nothing (self : InvoiceExporter) (start_date end_date : string)
    (w : world) (ps : list data) (e : exn) (fuel : nat) :
  serves (server w) (length (sent w)) ps ->
  Forall (fun d => truthy (next_page_of d) = true) ps ->
  fails_with (server w (length (sent w) + length ps)) e ->
  (forall res, fst (list_invoices_created_between fuel self start_date end_date w) <> Ok res)
  /\ (length ps < fuel ->
      fst (list_invoices_created_between fuel self start_date end_date w) = Raise e).
Proof.
  intros Hsrv Hcur Hfail. unfold list_invoices_created_between.
  rewrite (list_loop_broken_chain ps fuel _ _ _ [] PNone w e Hsrv Hcur Hfail).
  destruct (decide (length ps < fuel)); split; try done; lia.
Qed.

Lemma list_invoices_all_or_nothing_witness :
  (forall res, fst (list_invoices_created_between 5 exporter0 "2024-01-01" "2024-02-01"
                      (world_of page_then_error)) <> Ok res)
  /\ (1 < 5 ->
      fst (list_invoices_created_between 5 exporter0 "2024-01-01" "2024-02-01"
             (world_of page_then_error)) = Raise (HTTPError "500 Server Error")).
Proof.
  apply (list_invoices_all_or_nothing exporter0 "2024-01-01" "2024-02-01"
           (world_of page_then_error)
           [page [invoice_of "A" "2024-01-05"] (Some (PStr "cursor-1"))]
           (HTTPError "500 Server Error") 5).
  - simpl.
    eapply (serves_cons_intro _ 0); [reflexivity|reflexivity|reflexivity|].
    apply serves_nil.
  - repeat constructor.
  - simpl. eexists. split; reflexivity.
Defined.

(** ** The login *)




(** ** The export: skipped records *)

Lemma export_loop_app self dir l1 : forall l2 seen w,
  export_loop self dir seen (l1 ++ l2) w =
    bind (export_loop self dir seen l1) (fun s => export_loop self dir s l2) w.
Proof.
  induction l1 as [|r l1 IH]; intros l2 seen w; [done|].
  simpl. unfold bind.
  destruct (export_step self dir seen r w) as [[s| |] w1]; [|done|done].
  rewrite IH. reflexivity.
Qed.

Lemma export_step_no_id self dir seen r w :
  truthy (get r "id") = false -> export_step self dir seen r w = (Ok seen, w).
Proof. intros H. unfold export_step. by rewrite H. Qed.


(** Dropping a record whose step leaves state and world alone. *)
Lemma export_loop_drop self dir r l1 l2 seen w :
  (forall s w', export_step self dir s r w' = (Ok s, w')) ->
  export_loop self dir seen (l1 ++ r :: l2) w = export_loop self dir seen (l1 ++ l2) w.
Proof.
  intros Hr. rewrite !export_loop_app. unfold bind.
  destruct (export_loop self dir seen l1 w) as [[s| |] w1]; [|done|done].
  simpl. unfold bind. by rewrite Hr.
Qed.

(** Swapping a record for one with the same step. *)
Lemma export_loop_swap self dir r r' l1 l2 seen w :
  (forall s w', export_step self dir s r w' = export_step self dir s r' w') ->
  export_loop self dir seen (l1 ++ r :: l2) w = export_loop self dir seen (l1 ++ r' :: l2) w.
Proof.
  intros Hr. rewrite !export_loop_app. unfold bind.
  destruct (export_loop self dir seen l1 w) as [[s| |] w1]; [|done|done].
  simpl. unfold bind. by rewrite Hr.
Qed.

(** C8. Skip-on-missing-id: a record with no [id] member is skipped
    silently: its iteration returns normally with the registry [seen]
    and the whole world (requests, output, files) unchanged, and a run
    over a collection containing it equals the run without it. *)
Theorem skip_missing_id (self : InvoiceExporter) (dir : string) (r : pydict) :
  r !! "id" = None ->
  (forall seen w, export_step self dir seen r w = (Ok seen, w))
  /\ (forall l1 l2 w,
        export_pdfs self (l1 ++ r :: l2) dir w = export_pdfs self (l1 ++ l2) dir w).
Proof.
  intros Hid.
  assert (Hstep : forall s w', export_step self dir s r w' = (Ok s, w')).
  { intros s w'. apply export_step_no_id. unfold get. by rewrite Hid. }
  split; [done|]. intros l1 l2 w. unfold export_pdfs, bind.
  by rewrite (export_loop_drop self dir r l1 l2 ∅ w Hstep).
Qed.

Lemma skip_missing_id_witness :
  (forall seen w, export_step exporter0 "out" seen {["invoiceDate" := PStr "2024-01-05"]} w
                  = (Ok seen, w))
  /\ (forall l1 l2 w,
        export_pdfs exporter0 (l1 ++ {["invoiceDate" := PStr "2024-01-05"]} :: l2) "out" w
        = export_pdfs exporter0 (l1 ++ l2) "out" w).
Proof.
  apply (skip_missing_id exporter0 "out" {["invoiceDate" := PStr "2024-01-05"]}).
  reflexivity.
Defined.

(** C10. A record whose [id] member is the empty string is treated
    exactly like the same record without an [id] member: skipped
    silently, nothing fetched, printed or written, registry unchanged. *)
Theorem empty_id_as_missing (self : InvoiceExporter) (dir : string) (r : pydict) :
  r !! "id" = Some (PStr "") ->
  (forall seen w, export_step self dir seen r w = (Ok seen, w))
  /\ (forall seen w, export_step self dir seen r w
                     = export_step self dir seen (delete "id" r) w)
  /\ (forall l1 l2 w,
        export_pdfs self (l1 ++ r :: l2) dir w
        = export_pdfs self (l1 ++ delete "id" r :: l2) dir w).
Proof.
  intros Hid.
  assert (Hstep : forall s w', export_step self dir s r w' = (Ok s, w')).
  { intros s w'. apply export_step_no_id. unfold get. by rewrite Hid. }
  assert (Hdel : forall s w', export_step self dir s (delete "id" r) w' = (Ok s, w')).
  { intros s w'. apply export_step_no_id. unfold get. by rewrite lookup_delete_eq. }
  split; [done|]. split.
  - intros seen w. by rewrite Hstep, Hdel.
  - intros l1 l2 w. unfold export_pdfs, bind.
    rewrite (export_loop_swap self dir r (delete "id" r) l1 l2 ∅ w); [done|].
    intros s w'. by rewrite Hstep, Hdel.
Qed.

Lemma empty_id_as_missing_witness :
  (forall seen w, export_step exporter0 "out" seen (invoice_of "" "2024-01-05") w
                  = (Ok seen, w))
  /\ (forall seen w, export_step exporter0 "out" seen (invoice_of "" "2024-01-05") w
                     = export_step exporter0 "out" seen
                         (delete "id" (invoice_of "" "2024-01-05")) w)
  /\ (forall l1 l2 w,
        export_pdfs exporter0 (l1 ++ invoice_of "" "2024-01-05" :: l2) "out" w
        = export_pdfs exporter0 (l1 ++ delete "id" (invoice_of "" "2024-01-05") :: l2) "out" w).
Proof.
  apply (empty_id_as_missing exporter0 "out" (invoice_of "" "2024-01-05")).
  reflexivity.
Defined.






(** ** The export: from the registry to the naming policy *)

Lemma before_twice s :
  Str.before " " (Str.before "T" s) = before_any is_time_separator s.
Proof.
  induction s as [|c s IH]; [done|].
  cbn [Str.before before_any]. unfold is_time_separator.
  destruct (Ascii.eqb c "T") eqn:HT; [done|].
  cbn [Str.before orb].
  destruct (Ascii.eqb c " ") eqn:HS; [done|].
  by rewrite IH.
Qed.

Lemma replace_twice s :
  Str.replace ":" "-" (Str.replace "/" "-" s) = replace_unsafe s.
Proof.
  induction s as [|c s IH]; [done|].
  cbn [Str.replace replace_unsafe]. rewrite IH. f_equal.
  unfold is_path_unsafe.
  destruct (Ascii.eqb c "/") eqn:H1; [done|].
  by destruct (Ascii.eqb c ":") eqn:H2.
Qed.

Lemma base_name_of_stripped v : base_name_of v = stripped_base_name (py_str v).
Proof.
  unfold base_name_of, stripped_base_name, claimed_base_name.
  by rewrite before_twice, replace_twice.
Qed.

Lemma registry_of_empty : registry_of ∅ [].
Proof. intros b. rewrite lookup_empty. simpl. split; [|done]. intros _. apply not_elem_of_nil. Qed.

Lemma registry_of_insert seen earlier b :
  registry_of seen earlier ->
  registry_of (<[b := default 0 (seen !! b) + 1]> seen) (b :: earlier).
Proof.
  intros H b'. destruct (decide (b = b')) as [<-|Hne].
  - rewrite lookup_insert_eq. simpl. split; [lia|].
    intros Hn. exfalso. apply Hn. apply list_elem_of_here.
  - rewrite lookup_insert_ne by done. rewrite (H b'). rewrite not_elem_of_cons.
    split; [by intros ?; split|by intros [_ ?]].
Qed.

(** Refinement: the names the loop assigns are those of the policy. *)
Lemma assigned_names_named_by l : forall seen earlier,
  registry_of seen earlier ->
  assigned_names seen l = named_by stripped_base_name earlier l.
Proof.
  induction l as [|r l IH]; intros seen earlier Hreg; [done|].
  cbn [assigned_names named_by]. destruct (exported r); [|by apply IH].
  cbv zeta. rewrite <- !base_name_of_stripped.
  set (b := base_name_of (get r "invoiceDate")).
  rewrite (IH _ (b :: earlier)) by (by apply registry_of_insert).
  f_equal. unfold filename_of.
  destruct (default 0 (seen !! b) =? 0)%nat eqn:Hc.
  - apply Nat.eqb_eq in Hc. apply Hreg in Hc. by rewrite bool_decide_false.
  - apply Nat.eqb_neq in Hc. rewrite bool_decide_true; [done|].
    destruct (decide (b ∈ earlier)) as [|Hn]; [done|]. by apply Hreg in Hn.
Qed.

(** What one iteration does to the registry, the requests and the files. *)
Lemma export_step_cases self dir seen r w :
  let b := base_name_of (get r "invoiceDate") in
  let c := default 0 (seen !! b) in
  let p := {| parent := dir; name := filename_of b c (get r "id") |} in
  (exported r = false
   /\ exists w1, export_step self dir seen r w = (Ok seen, w1)
        /\ written w1 = written w
        /\ sent w1 = sent w /\ server w1 = server w /\ disk w1 = disk w)
  \/ (exported r = true
      /\ ~ (good_reply (server w (length (sent w)))
            /\ disk w (length (written w)) p = None)
      /\ exists e w1, export_step self dir seen r w = (Raise e, w1)
           /\ written w1 = written w)
  \/ (exported r = true
      /\ good_reply (server w (length (sent w)))
      /\ disk w (length (written w)) p = None
      /\ exists w1 body, export_step self dir seen r w = (Ok (<[b := c + 1]> seen), w1)
           /\ written w1 = written w ++ [(p, body)]
           /\ length (sent w1) = S (length (sent w))
           /\ server w1 = server w /\ disk w1 = disk w).
Proof.
  intros b c p. unfold exported, export_step.
  destruct (truthy (get r "id")); simpl; [|left; split; [done|]; by eexists].
  destruct (truthy (get r "invoiceDate")); simpl; [|left; split; [done|]; by eexists].
  right. unfold bind, get_invoice_pdf, requests_get, requests_send, bind.
  destruct (server w (length (sent w))) as [d|resp] eqn:Hs.
  { left. split; [done|]. split; [|by eexists _, _].
    intros [(resp & Hr & _) _]. done. }
  unfold raise_for_status.
  destruct (http_error resp) as [reason|] eqn:He; simpl.
  { left. split; [done|]. split; [|by eexists _, _].
    intros [(resp' & Hr & He') _]. congruence. }
  unfold write_bytes. simpl. fold b. fold c. fold p.
  destruct (disk w (length (written w)) p) as [e|] eqn:Hd.
  { left. split; [done|]. split; [|by eexists _, _].
    intros [_ Hn]. congruence. }
  right. split; [done|]. split; [by exists resp|]. split; [done|].
  eexists _, _. split; [reflexivity|]. simpl.
  repeat split. rewrite length_app. simpl. lia.
Qed.

(** The files a run of the loop writes carry a prefix of the assigned
    names; all of them when the loop returns. *)
Lemma export_loop_names self dir l : forall seen w,
  exists k,
    names_written (snd (export_loop self dir seen l w))
      = names_written w ++ take k (assigned_names seen l)
    /\ (forall s, fst (export_loop self dir seen l w) = Ok s ->
          names_written (snd (export_loop self dir seen l w))
            = names_written w ++ assigned_names seen l).
Proof.
  induction l as [|r l IH]; intros seen w.
  { exists 0. simpl. by rewrite app_nil_r. }
  cbn [export_loop assigned_names]. unfold bind.
  destruct (export_step_cases self dir seen r w)
    as [(Hx & w1 & Hs & Hn & _)|[(Hx & _ & e & w1 & Hs & Hn)
                                |(Hx & _ & _ & w1 & body & Hs & Hn & _)]];
    rewrite Hs, Hx; cbv beta iota zeta.
  - destruct (IH seen w1) as (k & Hk & Hok). exists k. unfold names_written in *.
    split; [by rewrite Hk, Hn|]. intros s Hs'. by rewrite (Hok s Hs'), Hn.
  - exists 0. cbn [take snd fst]. unfold names_written. rewrite Hn, app_nil_r.
    split; [done|]. intros s Hs'. done.
  - destruct (IH (<[base_name_of (get r "invoiceDate")
                    := default 0 (seen !! base_name_of (get r "invoiceDate")) + 1]> seen) w1)
      as (k & Hk & Hok).
    unfold names_written in *. exists (S k). split.
    + rewrite Hk, Hn, map_app. cbn [take map fst name]. by rewrite <- app_assoc.
    + intros s Hs'. rewrite (Hok s Hs'), Hn, map_app. cbn [map fst name].
      by rewrite <- app_assoc.
Qed.

(** When every fetch succeeds and the file system accepts every write,
    the loop returns. *)
Lemma export_loop_returns self dir l : forall seen w,
  (forall i, i < length (List.filter exported l) ->
     good_reply (server w (length (sent w) + i))) ->
  accepts (disk w) (length (written w)) (length (List.filter exported l)) ->
  exists s, fst (export_loop self dir seen l w) = Ok s.
Proof.
  induction l as [|r l IH]; intros seen w Hgood Hdisk; [by eexists|].
  cbn [export_loop]. unfold bind.
  destruct (export_step_cases self dir seen r w)
    as [(Hx & w1 & Hs & Hwr & Hse & Hsv & Hdk)
       |[(Hx & Hbad & _)
        |(Hx & _ & _ & w1 & body & Hs & Hwr & Hse & Hsv & Hdk)]].
  - rewrite Hs. cbv beta iota. apply IH.
    + intros i Hi. rewrite Hsv, Hse. apply Hgood. simpl. by rewrite Hx.
    + intros i p Hi. rewrite Hdk, Hwr. apply Hdisk. simpl. by rewrite Hx.
  - exfalso. apply Hbad. split.
    + specialize (Hgood 0). rewrite Nat.add_0_r in Hgood.
      apply Hgood. simpl. rewrite Hx. simpl. lia.
    + specialize (Hdisk 0). rewrite Nat.add_0_r in Hdisk.
      apply Hdisk. simpl. rewrite Hx. simpl. lia.
  - rewrite Hs. cbv beta iota. apply IH.
    + intros i Hi. rewrite Hsv, Hse.
      replace (S (length (sent w)) + i) with (length (sent w) + S i) by lia.
      apply Hgood. simpl. rewrite Hx. simpl. lia.
    + intros i p Hi. rewrite Hdk, Hwr, length_app. simpl.
      replace (length (written w) + 1 + i) with (length (written w) + S i) by lia.
      apply Hdisk. simpl. rewrite Hx. simpl. lia.
Qed.

(** ** String append *)


Lemma append_cons_l (c : ascii) (s t : string) : String c s +:+ t = String c (s +:+ t).
Proof. reflexivity. Qed.





(** ** The policy, record by record *)




Lemma export_pdfs_loop self l dir w :
  snd (export_pdfs self l dir w) = snd (export_loop self dir ∅ l w)
  /\ (fst (export_pdfs self l dir w) = Ok tt <->
      exists s, fst (export_loop self dir ∅ l w) = Ok s).
Proof.
  unfold export_pdfs, bind.
  destruct (export_loop self dir ∅ l w) as [[s| |] w1]; simpl; split; try done.
  - split; [by eexists|done].
  - split; [done|]. by intros [s Hs].
  - split; [done|]. by intros [s Hs].
Qed.

(** C5 (amended). The files a run of [export_pdfs] writes are named by
    the collision policy over the stripped base name: the date's string
    form with surrounding whitespace removed, cut before the first [T]
    or space, [/] and [:] replaced by [-]; the first exported record
    producing a base name gets [<base>.pdf], each later one
    [<base>-<id>.pdf].  A run that stops early (a fetch failed, or the
    file system refused a write) has written a prefix of these names; a
    run in which every fetch succeeds and the file system accepts every
    write returns and has written all of them. *)
Theorem export_filenames (self : InvoiceExporter) (dir : string)
    (invoices : list pydict) (w : world) :
  (exists k,
     names_written (snd (export_pdfs self invoices dir w))
       = names_written w ++ take k (named_by stripped_base_name [] invoices))
  /\ (fst (export_pdfs self invoices dir w) = Ok tt ->
      names_written (snd (export_pdfs self invoices dir w))
        = names_written w ++ named_by stripped_base_name [] invoices)
  /\ ((forall i, i < length (List.filter exported invoices) ->
         good_reply (server w (length (sent w) + i))) ->
      accepts (disk w) (length (written w)) (length (List.filter exported invoices)) ->
      fst (export_pdfs self invoices dir w) = Ok tt).
Proof.
  destruct (export_pdfs_loop self invoices dir w) as [Hsnd Hfst].
  destruct (export_loop_names self dir invoices ∅ w) as (k & Hk & Hok).
  rewrite (assigned_names_named_by invoices ∅ [] registry_of_empty) in Hk, Hok.
  rewrite Hsnd. split; [by exists k|]. split.
  - intros H. apply Hfst in H as [s Hs]. by apply (Hok s).
  - intros Hgood Hdisk. apply Hfst. by apply export_loop_returns.
Qed.

(** C5 as stated fails: the claimed base name is taken from the date
    string itself, and the code strips the string first. *)
Lemma claimed_filename_misses_strip :
  exported padded_invoice = true
  /\ names_written (snd (export_pdfs exporter0 [padded_invoice] "out" (world_of pdf_server)))
     = ["2024-01-05.pdf"]
  /\ named_by claimed_base_name [] [padded_invoice] = [".pdf"]
  /\ names_written (snd (export_pdfs exporter0 [padded_invoice] "out" (world_of pdf_server)))
     <> named_by claimed_base_name [] [padded_invoice].
Proof.
  split; [reflexivity|]. split; [vm_compute; reflexivity|].
  split; [vm_compute; reflexivity|]. vm_compute. discriminate.
Qed.



(** ** The paginated lister: what every run of it satisfies *)

(** Whenever the loop returns, the replies it consumed formed a finite
    chain, and the result is the accumulator followed by their records. *)
Lemma list_loop_ok_inv fuel : forall url h f acc np w res w',
  list_loop fuel url h f acc np w = (Ok res, w') ->
  exists ps last,
    serves (server w) (length (sent w)) (ps ++ [last])
    /\ Forall (fun d => truthy (next_page_of d) = true) ps
    /\ truthy (next_page_of last) = false
    /\ length ps < fuel
    /\ res = acc ++ concat (map records_of (ps ++ [last])).
Proof.
  induction fuel as [|fuel IH]; intros url h f acc np w res w' Hrun; [done|].
  destruct (server w (length (sent w))) as [d|resp] eqn:Hs.
  { rewrite (list_loop_fail_step _ _ _ _ _ _ _ (RequestException d)) in Hrun; [done|].
    by rewrite Hs. }
  destruct (http_error resp) as [reason|] eqn:He.
  { rewrite (list_loop_fail_step _ _ _ _ _ _ _ (HTTPError reason)) in Hrun; [done|].
    rewrite Hs. simpl. eauto. }
  rewrite (list_loop_step _ _ _ _ _ _ _ _ Hs He) in Hrun. cbv zeta in Hrun.
  destruct (truthy (next_page_of (json resp))) eqn:Hc.
  - apply IH in Hrun as (ps & last & Hsrv & Hcur & Hlast & Hlen & ->).
    exists (json resp :: ps), last. repeat split.
    + simpl. apply (serves_cons_intro _ _ resp); try done.
      simpl in Hsrv. rewrite length_app in Hsrv. simpl in Hsrv.
      by replace (length (sent w) + 1) with (S (length (sent w))) in Hsrv by lia.
    + by constructor.
    + done.
    + simpl. lia.
    + simpl. by rewrite <- app_assoc.
  - assert (res = acc ++ records_of (json resp)) as -> by congruence.
    exists [], (json resp). repeat split.
    + simpl. apply (serves_cons_intro _ _ resp); try done; apply serves_nil.
    + constructor.
    + done.
    + simpl. lia.
    + simpl. by rewrite app_nil_r.
Qed.

Lemma endless_next srv n : endless srv n -> endless srv (S n).
Proof.
  intros H i. destruct (H (S i)) as (resp & Hs & He & Hc).
  exists resp. by rewrite Nat.add_succ_r in Hs.
Qed.

Lemma list_loop_endless fuel : forall url h f acc np w,
  endless (server w) (length (sent w)) ->
  fst (list_loop fuel url h f acc np w) = Unfinished
  /\ length (sent (snd (list_loop fuel url h f acc np w))) = length (sent w) + fuel.
Proof.
  induction fuel as [|fuel IH]; intros url h f acc np w Hend.
  - simpl. split; [done|lia].
  - destruct (Hend 0) as (resp & Hs & He & Hc). rewrite Nat.add_0_r in Hs.
    rewrite (list_loop_step _ _ _ _ _ _ _ _ Hs He). cbv zeta. rewrite Hc.
    destruct (IH url h f (acc ++ records_of (json resp)) (next_page_of (json resp))
                (log_requests w [list_request url h (list_params f np)])) as [Ho Hl].
    + simpl. rewrite length_app. simpl.
      replace (length (sent w) + 1) with (S (length (sent w))) by lia.
      by apply endless_next.
    + split; [done|]. rewrite Hl. simpl. rewrite length_app. simpl. lia.
Qed.

(** Once the loop has returned or raised, more fuel changes nothing. *)
Lemma list_loop_more_fuel fuel : forall fuel' url h f acc np w,
  fst (list_loop fuel url h f acc np w) <> Unfinished ->
  fuel <= fuel' ->
  list_loop fuel' url h f acc np w = list_loop fuel url h f acc np w.
Proof.
  induction fuel as [|fuel IH]; intros fuel' url h f acc np w Hfin Hle; [done|].
  destruct fuel' as [|fuel']; [lia|].
  destruct (server w (length (sent w))) as [d|resp] eqn:Hs.
  { rewrite !(list_loop_fail_step _ _ _ _ _ _ _ (RequestException d)); try done;
      by rewrite Hs. }
  destruct (http_error resp) as [reason|] eqn:He.
  { rewrite !(list_loop_fail_step _ _ _ _ _ _ _ (HTTPError reason)); try done;
      rewrite Hs; simpl; eauto. }
  rewrite (list_loop_step _ _ _ _ _ _ _ _ Hs He) in Hfin.
  rewrite !(list_loop_step _ _ _ _ _ _ _ _ Hs He). cbv zeta in *.
  destruct (truthy (next_page_of (json resp))); [|done].
  apply IH; [done|lia].
Qed.

(** X1. Whenever the listing returns a collection, the server delivered
    a finite chain of successful pages from the first request on (a
    cursor on every page but the last), the collection is exactly the
    concatenation of their records, and one request per page was sent. *)
Theorem list_invoices_returns_chain (fuel : nat) (self : InvoiceExporter)
    (start_date end_date : string) (w : world) (res : list pydict) :
  fst (list_invoices_created_between fuel self start_date end_date w) = Ok res ->
  exists ps last,
    serves (server w) (length (sent w)) (ps ++ [last])
    /\ Forall (fun d => truthy (next_page_of d) = true) ps
    /\ truthy (next_page_of last) = false
    /\ res = concat (map records_of (ps ++ [last]))
    /\ length (sent (snd (list_invoices_created_between fuel self start_date end_date w)))
       = length (sent w) + length (ps ++ [last]).
Proof.
  unfold list_invoices_created_between. intros Hrun.
  destruct (list_loop fuel (base_url self +:+ "/v3/invoices") (list_headers self)
              (filter_expr start_date end_date) [] PNone w) as [o w'] eqn:Hloop.
  simpl in Hrun. subst o.
  pose proof Hloop as Hinv.
  apply list_loop_ok_inv in Hinv as (ps & last & Hsrv & Hcur & Hlast & Hlen & Hres).
  exists ps, last. repeat split; try done.
  rewrite (list_loop_chain ps last fuel _ _ _ [] PNone w Hsrv Hcur Hlast Hlen) in Hloop.
  injection Hloop as _ <-. simpl.
  by rewrite length_app, chain_requests_length.
Qed.

Lemma list_invoices_returns_chain_witness :
  exists ps last,
    serves two_pages 0 (ps ++ [last])
    /\ Forall (fun d => truthy (next_page_of d) = true) ps
    /\ truthy (next_page_of last) = false
    /\ [invoice_of "A" "2024-01-05"; invoice_of "B" "2024-01-05";
        invoice_of "C" "2024-01-06"]
       = concat (map records_of (ps ++ [last]))
    /\ length (sent (snd (list_invoices_created_between 7 exporter0 "2024-01-01" "2024-02-01"
                            (world_of two_pages))))
       = 0 + length (ps ++ [last]).
Proof.
  apply (list_invoices_returns_chain 7 exporter0 "2024-01-01" "2024-02-01"
           (world_of two_pages)).
  reflexivity.
Defined.

(** X3. The loop has no page bound: against a server whose every page
    carries a cursor, no number of iterations makes the listing return
    or raise, and every iteration sends one more request. *)
Theorem list_invoices_no_page_bound (fuel : nat) (self : InvoiceExporter)
    (start_date end_date : string) (w : world) :
  endless (server w) (length (sent w)) ->
  fst (list_invoices_created_between fuel self start_date end_date w) = Unfinished
  /\ length (sent (snd (list_invoices_created_between fuel self start_date end_date w)))
     = length (sent w) + fuel.
Proof. intros Hend. by apply list_loop_endless. Qed.

Lemma list_invoices_no_page_bound_witness :
  fst (list_invoices_created_between 9 exporter0 "2024-01-01" "2024-02-01"
         (world_of endless_server)) = Unfinished
  /\ length (sent (snd (list_invoices_created_between 9 exporter0 "2024-01-01" "2024-02-01"
                          (world_of endless_server))))
     = 0 + 9.
Proof.
  apply (list_invoices_no_page_bound 9 exporter0 "2024-01-01" "2024-02-01"
           (world_of endless_server)).
  intros i. eexists. repeat split; reflexivity.
Defined.

(** X4. Every request of the listing is a [GET] of [<base_url>/v3/invoices]
    with a 60 second timeout and the three headers [content-type],
    [sessionId] (the session token) and [devKey]; the listing prints
    nothing and writes no file. *)
Theorem list_invoices_requests_uniform (fuel : nat) (self : InvoiceExporter)
    (start_date end_date : string) (w : world) :
  exists reqs,
    snd (list_invoices_created_between fuel self start_date end_date w)
      = {| server := server w; disk := disk w; sent := sent w ++ reqs;
           stdout := stdout w; written := written w |}
    /\ Forall (fun r =>
          req_method r = GET
          /\ req_url r = base_url self +:+ "/v3/invoices"
          /\ req_timeout r = 60%Z
          /\ req_json r = ∅
          /\ req_headers r !! "content-type" = Some (PStr "application/json")
          /\ req_headers r !! "sessionId" = Some (session_id self)
          /\ req_headers r !! "devKey" = Some (PStr (dev_key self))
          /\ size (req_headers r) = 3) reqs.
Proof.
  unfold list_invoices_created_between.
  destruct (list_loop_trace fuel (base_url self +:+ "/v3/invoices") (list_headers self)
              (filter_expr start_date end_date) [] PNone w)
    as (reqs & Hw & H0 & Hz & Hrest).
  exists reqs. split; [done|].
  assert (Hshape : forall r, (exists ps, r = list_request (base_url self +:+ "/v3/invoices")
                                             (list_headers self) ps) ->
            req_method r = GET
            /\ req_url r = base_url self +:+ "/v3/invoices"
            /\ req_timeout r = 60%Z
            /\ req_json r = ∅
            /\ req_headers r !! "content-type" = Some (PStr "application/json")
            /\ req_headers r !! "sessionId" = Some (session_id self)
            /\ req_headers r !! "devKey" = Some (PStr (dev_key self))
            /\ size (req_headers r) = 3).
  { intros r [ps ->]. simpl. unfold list_headers. repeat split. }
  apply Forall_lookup. intros i r Hi. apply Hshape.
  destruct i as [|i].
  - destruct fuel as [|fuel]; [by rewrite Hz in Hi|].
    rewrite H0 in Hi by lia. injection Hi as <-. by eexists.
  - destruct (Hrest i r Hi) as (resp & _ & _ & _ & ->). by eexists.
Qed.

(** Fuel is only a bound on the iterations: once the listing has
    returned or raised, running it with more fuel gives the same outcome
    and the same world. *)
Lemma list_invoices_fuel_irrelevant (fuel fuel' : nat) (self : InvoiceExporter)
    (start_date end_date : string) (w : world) :
  fst (list_invoices_created_between fuel self start_date end_date w) <> Unfinished ->
  fuel <= fuel' ->
  list_invoices_created_between fuel' self start_date end_date w
  = list_invoices_created_between fuel self start_date end_date w.
Proof. unfold list_invoices_created_between. intros Hfin Hle. by apply list_loop_more_fuel. Qed.

(** ** get_invoice_pdf *)

Lemma reply_cases (r : reply) : good_reply r \/ exists e, fails_with r e.
Proof.
  destruct r as [d|resp]; [right; by eexists|].
  destruct (http_error resp) as [reason|] eqn:He.
  - right. exists (HTTPError reason). simpl. eauto.
  - left. by exists resp.
Qed.

Lemma get_invoice_pdf_ok self id w resp :
  server w (length (sent w)) = Replies resp -> http_error resp = None ->
  get_invoice_pdf self id w = (Ok (content resp), log_requests w [pdf_request self id]).
Proof.
  intros Hs He. unfold get_invoice_pdf, bind, requests_get, requests_send.
  rewrite Hs. unfold raise_for_status. by rewrite He.
Qed.

Lemma get_invoice_pdf_fail self id w e :
  fails_with (server w (length (sent w))) e ->
  get_invoice_pdf self id w = (Raise e, log_requests w [pdf_request self id]).
Proof.
  intros Hf. unfold get_invoice_pdf, bind, requests_get, requests_send.
  destruct (server w (length (sent w))) as [d|resp]; simpl in Hf.
  - by subst e.
  - destruct Hf as (reason & He & ->). unfold raise_for_status. by rewrite He.
Qed.

(** X5. [get_invoice_pdf] sends exactly one request, whatever comes
    back: a [GET] of [<pdf_base_url>/Invoice2PdfServlet] with a 60
    second timeout, the session token as its only header (no developer
    key) and the two parameters [Id] and [PresentationType=PDF].  On a
    success status it returns the reply's body unchanged; when the
    request fails it raises that failure. *)
Theorem get_invoice_pdf_one_request (self : InvoiceExporter) (invoice_id : pyval)
    (w : world) :
  exists r,
    snd (get_invoice_pdf self invoice_id w)
      = {| server := server w; disk := disk w; sent := sent w ++ [r];
           stdout := stdout w; written := written w |}
    /\ req_method r = GET
    /\ req_url r = pdf_base_url self +:+ "/Invoice2PdfServlet"
    /\ req_timeout r = 60%Z
    /\ req_headers r = {["sessionId" := session_id self]}
    /\ req_headers r !! "devKey" = None
    /\ req_params r !! "Id" = Some invoice_id
    /\ req_params r !! "PresentationType" = Some (PStr "PDF")
    /\ size (req_params r) = 2
    /\ (forall resp, server w (length (sent w)) = Replies resp -> http_error resp = None ->
          fst (get_invoice_pdf self invoice_id w) = Ok (content resp))
    /\ (forall e, fails_with (server w (length (sent w))) e ->
          fst (get_invoice_pdf self invoice_id w) = Raise e).
Proof.
  exists (pdf_request self invoice_id).
  split.
  { destruct (reply_cases (server w (length (sent w)))) as [(resp & Hs & He)|[e Hf]].
    - by rewrite (get_invoice_pdf_ok _ _ _ _ Hs He).
    - by rewrite (get_invoice_pdf_fail _ _ _ _ Hf). }
  repeat split.
  - intros resp Hs He. by rewrite (get_invoice_pdf_ok _ _ _ _ Hs He).
  - intros e Hf. by rewrite (get_invoice_pdf_fail _ _ _ _ Hf).
Qed.

(** ** The export: requests, files and notices *)

Lemma exported_split r :
  exported r = true -> truthy (get r "id") = true /\ truthy (get r "invoiceDate") = true.
Proof. unfold exported. by intros [? ?]%andb_prop. Qed.

Lemma export_step_fetch_ok self dir seen r w resp :
  exported r = true ->
  server w (length (sent w)) = Replies resp -> http_error resp = None ->
  disk w (length (written w)) (target dir seen r) = None ->
  export_step self dir seen r w =
    (Ok (<[base_name_of (get r "invoiceDate")
           := default 0 (seen !! base_name_of (get r "invoiceDate")) + 1]> seen),
     {| server := server w; disk := disk w; sent := sent w ++ [pdf_request self (get r "id")];
        stdout := stdout w;
        written := written w ++ [(target dir seen r, content resp)] |}).
Proof.
  intros [Hi Hd]%exported_split Hs He Hdisk. unfold export_step. rewrite Hi, Hd. simpl.
  unfold bind at 1. rewrite (get_invoice_pdf_ok _ _ _ _ Hs He).
  unfold bind, write_bytes. cbn [written disk log_requests].
  fold (target dir seen r). by rewrite Hdisk.
Qed.

Lemma export_step_write_fail self dir seen r w resp e :
  exported r = true ->
  server w (length (sent w)) = Replies resp -> http_error resp = None ->
  disk w (length (written w)) (target dir seen r) = Some e ->
  export_step self dir seen r w
  = (Raise e, log_requests w [pdf_request self (get r "id")]).
Proof.
  intros [Hi Hd]%exported_split Hs He Hdisk. unfold export_step. rewrite Hi, Hd. simpl.
  unfold bind at 1. rewrite (get_invoice_pdf_ok _ _ _ _ Hs He).
  unfold bind, write_bytes. cbn [written disk log_requests].
  fold (target dir seen r). by rewrite Hdisk.
Qed.

Lemma export_step_fetch_fail self dir seen r w e :
  exported r = true ->
  fails_with (server w (length (sent w))) e ->
  export_step self dir seen r w
  = (Raise e, log_requests w [pdf_request self (get r "id")]).
Proof.
  intros [Hi Hd]%exported_split Hf. unfold export_step. rewrite Hi, Hd. simpl.
  unfold bind at 1. by rewrite (get_invoice_pdf_fail _ _ _ _ Hf).
Qed.

(** An exported record: its iteration raises (the fetch failed or the
    file system refused the write) after one request, or it writes the
    file. *)
Lemma export_step_exported self dir seen r w :
  exported r = true ->
  (exists e, export_step self dir seen r w
             = (Raise e, log_requests w [pdf_request self (get r "id")]))
  \/ (exists resp,
        server w (length (sent w)) = Replies resp /\ http_error resp = None
        /\ disk w (length (written w)) (target dir seen r) = None
        /\ export_step self dir seen r w =
             (Ok (<[base_name_of (get r "invoiceDate")
                    := default 0 (seen !! base_name_of (get r "invoiceDate")) + 1]> seen),
              {| server := server w; disk := disk w;
                 sent := sent w ++ [pdf_request self (get r "id")];
                 stdout := stdout w;
                 written := written w ++ [(target dir seen r, content resp)] |})).
Proof.
  intros Hx.
  destruct (reply_cases (server w (length (sent w)))) as [(resp & Hs & He)|[e Hf]].
  - destruct (disk w (length (written w)) (target dir seen r)) as [e|] eqn:Hd.
    + left. exists e. by apply (export_step_write_fail _ _ _ _ _ resp).
    + right. exists resp. repeat split; try done. by apply export_step_fetch_ok.
  - left. exists e. by apply export_step_fetch_fail.
Qed.

(** A record that is not exported is skipped silently or with a notice. *)
Lemma export_step_skip self dir seen r w :
  exported r = false ->
  export_step self dir seen r w
  = (Ok seen, if undated r then log_line w (skip_notice (get r "id")) else w).
Proof.
  unfold exported, undated, export_step.
  destruct (truthy (get r "id")); simpl; [|done].
  destruct (truthy (get r "invoiceDate")); simpl; done.
Qed.

Lemma undated_not_exported r : exported r = true -> undated r = false.
Proof. intros [Hi Hd]%exported_split. unfold undated. by rewrite Hi, Hd. Qed.

(** The requests and the notices of a run of the loop: a prefix of one
    request per exported record and of one notice per undated record,
    all of them when the loop returns. *)
Lemma export_loop_effects self dir l : forall seen w,
  exists kr kn,
    sent (snd (export_loop self dir seen l w))
      = sent w ++ take kr (map (fun r => pdf_request self (get r "id")) (List.filter exported l))
    /\ stdout (snd (export_loop self dir seen l w))
      = stdout w ++ take kn (map (fun r => skip_notice (get r "id")) (List.filter undated l))
    /\ server (snd (export_loop self dir seen l w)) = server w
    /\ ((exists s, fst (export_loop self dir seen l w) = Ok s) ->
        kr = length (List.filter exported l) /\ kn = length (List.filter undated l)).
Proof.
  induction l as [|r l IH]; intros seen w.
  { exists 0, 0. simpl. by rewrite !app_nil_r. }
  cbn [export_loop List.filter]. unfold bind.
  destruct (exported r) eqn:Hx.
  - rewrite (undated_not_exported r Hx).
    destruct (export_step_exported self dir seen r w Hx)
      as [[e Hstep]|(resp & Hs & He & Hd & Hstep)]; rewrite Hstep; cbv beta iota.
    + exists 1, 0. cbn [map take snd fst log_requests sent stdout server].
      rewrite take_0, app_nil_r.
      split; [done|]. split; [done|]. split; [done|].
      by intros [s Hs].
    + match goal with |- context [export_loop self dir ?s l ?w1] =>
        destruct (IH s w1) as (kr & kn & Hsent & Hout & Hsrv & Hall) end.
      exists (S kr), kn. rewrite Hsent, Hout, Hsrv. cbn [map take sent stdout server].
      rewrite <- app_assoc.
      split; [done|]. split; [done|]. split; [done|].
      intros Hok. destruct (Hall Hok) as [-> ->]. done.
  - rewrite (export_step_skip _ _ _ _ _ Hx). cbv beta iota.
    destruct (undated r) eqn:Hu.
    + destruct (IH seen (log_line w (skip_notice (get r "id"))))
        as (kr & kn & Hsent & Hout & Hsrv & Hall).
      exists kr, (S kn). rewrite Hsent, Hout, Hsrv. cbn [map take log_line sent stdout server].
      rewrite <- app_assoc.
      split; [done|]. split; [done|]. split; [done|].
      intros Hok. destruct (Hall Hok) as [-> ->]. done.
    + destruct (IH seen w) as (kr & kn & Hsent & Hout & Hsrv & Hall).
      exists kr, kn. by rewrite Hsent, Hout, Hsrv.
Qed.

(** X6. An export run sends one PDF request per exported record, in
    input order, each carrying that record's identifier; skipped records
    cause no request.  A run that stops early has sent a prefix of them. *)
Theorem export_one_request_per_record (self : InvoiceExporter) (dir : string)
    (invoices : list pydict) (w : world) :
  (exists k,
     sent (snd (export_pdfs self invoices dir w))
     = sent w ++ take k (map (fun r => pdf_request self (get r "id"))
                           (List.filter exported invoices)))
  /\ (fst (export_pdfs self invoices dir w) = Ok tt ->
      sent (snd (export_pdfs self invoices dir w))
      = sent w ++ map (fun r => pdf_request self (get r "id"))
                    (List.filter exported invoices)).
Proof.
  destruct (export_pdfs_loop self invoices dir w) as [Hsnd Hfst].
  destruct (export_loop_effects self dir invoices ∅ w) as (kr & kn & Hsent & _ & _ & Hall).
  rewrite Hsnd, Hsent. split; [by exists kr|].
  intros Hok. apply Hfst in Hok. destruct (Hall Hok) as [-> _].
  f_equal. apply firstn_all2. by rewrite length_map.
Qed.

(** X7. What an export run prints is one notice per record that has an
    identifier and no usable date, in input order, and nothing else; a
    run that stops early has printed a prefix of them. *)
Theorem export_prints_only_notices (self : InvoiceExporter) (dir : string)
    (invoices : list pydict) (w : world) :
  (exists k,
     stdout (snd (export_pdfs self invoices dir w))
     = stdout w ++ take k (map (fun r => "Skipping invoice " +:+ py_str (get r "id")
                                         +:+ " (missing invoiceDate).")
                             (List.filter undated invoices)))
  /\ (fst (export_pdfs self invoices dir w) = Ok tt ->
      stdout (snd (export_pdfs self invoices dir w))
      = stdout w ++ map (fun r => "Skipping invoice " +:+ py_str (get r "id")
                                  +:+ " (missing invoiceDate).")
                      (List.filter undated invoices)).
Proof.
  destruct (export_pdfs_loop self invoices dir w) as [Hsnd Hfst].
  destruct (export_loop_effects self dir invoices ∅ w) as (kr & kn & _ & Hout & _ & Hall).
  rewrite Hsnd, Hout. split; [by exists kn|].
  intros Hok. apply Hfst in Hok. destruct (Hall Hok) as [_ ->].
  f_equal. apply firstn_all2. by rewrite length_map.
Qed.

Lemma export_loop_disk self dir l : forall seen w,
  disk (snd (export_loop self dir seen l w)) = disk w.
Proof.
  induction l as [|r l IH]; intros seen w; [done|].
  cbn [export_loop]. unfold bind.
  destruct (exported r) eqn:Hx.
  - destruct (export_step_exported self dir seen r w Hx)
      as [[e Hstep]|(resp & Hs & He & Hd & Hstep)]; rewrite Hstep; cbv beta iota.
    + done.
    + by rewrite IH.
  - rewrite (export_step_skip _ _ _ _ _ Hx). cbv beta iota.
    destruct (undated r); by rewrite IH.
Qed.




(** X9. A failed fetch aborts the export where it stands: when the
    records before [r] have been exported and the fetch for [r] fails,
    [export_pdfs] raises that failure; the files written so far stay,
    nothing is written for [r], and the records after [r] are neither
    fetched nor reported. *)
Theorem export_aborts_on_failed_fetch (self : InvoiceExporter) (dir : string)
    (l1 l2 : list pydict) (r : pydict) (w : world) (e : exn) :
  fst (export_pdfs self l1 dir w) = Ok tt ->
  exported r = true ->
  fails_with (server w (length (sent (snd (export_pdfs self l1 dir w))))) e ->
  export_pdfs self (l1 ++ r :: l2) dir w
  = (Raise e,
     {| server := server w; disk := disk w;
        sent := sent (snd (export_pdfs self l1 dir w)) ++ [pdf_request self (get r "id")];
        stdout := stdout (snd (export_pdfs self l1 dir w));
        written := written (snd (export_pdfs self l1 dir w)) |}).
Proof.
  intros Hok Hx Hf.
  destruct (export_pdfs_loop self l1 dir w) as [Hsnd Hfst].
  destruct (export_loop_effects self dir l1 ∅ w) as (_ & _ & _ & _ & Hsrv & _).
  pose proof (export_loop_disk self dir l1 ∅ w) as Hdsk.
  rewrite Hsnd in *. apply Hfst in Hok as [s Hs].
  unfold export_pdfs, bind. rewrite export_loop_app. unfold bind.
  destruct (export_loop self dir ∅ l1 w) as [o w1]. simpl in Hs, Hsrv, Hdsk, Hf. subst o.
  cbn [export_loop snd]. unfold bind.
  rewrite <- Hsrv in Hf.
  rewrite (export_step_fetch_fail _ _ _ _ _ _ Hx Hf).
  unfold log_requests. by rewrite Hsrv, Hdsk.
Qed.

Lemma export_aborts_on_failed_fetch_witness :
  export_pdfs exporter0
    ([invoice_of "A" "2024-01-05"] ++ invoice_of "B" "2024-01-05"
       :: [invoice_of "C" "2024-01-06"]) "out" (world_of pdf_then_error)
  = (Raise (HTTPError "404 Not Found"),
     {| server := pdf_then_error; disk := writable;
        sent := sent (snd (export_pdfs exporter0 [invoice_of "A" "2024-01-05"] "out"
                             (world_of pdf_then_error)))
                ++ [pdf_request exporter0 (get (invoice_of "B" "2024-01-05") "id")];
        stdout := stdout (snd (export_pdfs exporter0 [invoice_of "A" "2024-01-05"] "out"
                                 (world_of pdf_then_error)));
        written := written (snd (export_pdfs exporter0 [invoice_of "A" "2024-01-05"] "out"
                                   (world_of pdf_then_error))) |}).
Proof.
  apply (export_aborts_on_failed_fetch exporter0 "out" [invoice_of "A" "2024-01-05"]
           [invoice_of "C" "2024-01-06"] (invoice_of "B" "2024-01-05")
           (world_of pdf_then_error) (HTTPError "404 Not Found")).
  - reflexivity.
  - reflexivity.
  - simpl. eexists. split; reflexivity.
Defined.

(** The partial output of an aborted run, spelled out. *)
Example aborted_export_ex :
  names_written (snd (export_pdfs exporter0
     [invoice_of "A" "2024-01-05"; invoice_of "B" "2024-01-05"; invoice_of "C" "2024-01-06"]
     "out" (world_of pdf_then_error)))
  = ["2024-01-05.pdf"]
  /\ length (sent (snd (export_pdfs exporter0
     [invoice_of "A" "2024-01-05"; invoice_of "B" "2024-01-05"; invoice_of "C" "2024-01-06"]
     "out" (world_of pdf_then_error)))) = 2.
Proof. split; reflexivity. Qed.

(** X22. A refused write aborts the export where it stands: when the
    records before [r] have been exported, the fetch for [r] succeeds
    and the file system refuses the write of its file, [export_pdfs]
    raises the file system's error; the files written so far stay, no
    file is recorded for [r], and the records after [r] are neither
    fetched nor reported. *)
Theorem export_aborts_on_refused_write (self : InvoiceExporter) (dir : string)
    (l1 l2 : list pydict) (r : pydict) (w : world) (seen : gmap string nat) (e : exn) :
  fst (export_loop self dir ∅ l1 w) = Ok seen ->
  exported r = true ->
  good_reply (server w (length (sent (snd (export_loop self dir ∅ l1 w))))) ->
  disk w (length (written (snd (export_loop self dir ∅ l1 w)))) (target dir seen r)
    = Some e ->
  export_pdfs self (l1 ++ r :: l2) dir w
  = (Raise e,
     {| server := server w; disk := disk w;
        sent := sent (snd (export_loop self dir ∅ l1 w))
                ++ [pdf_request self (get r "id")];
        stdout := stdout (snd (export_loop self dir ∅ l1 w));
        written := written (snd (export_loop self dir ∅ l1 w)) |}).
Proof.
  intros Hok Hx (resp & Hs & He) Hd.
  destruct (export_loop_effects self dir l1 ∅ w) as (_ & _ & _ & _ & Hsrv & _).
  pose proof (export_loop_disk self dir l1 ∅ w) as Hdsk.
  unfold export_pdfs, bind. rewrite export_loop_app. unfold bind.
  destruct (export_loop self dir ∅ l1 w) as [o w1].
  simpl in Hok, Hsrv, Hdsk, Hs, Hd. subst o.
  cbn [export_loop snd]. unfold bind.
  rewrite <- Hsrv in Hs. rewrite <- Hdsk in Hd.
  rewrite (export_step_write_fail _ _ _ _ _ _ _ Hx Hs He Hd).
  unfold log_requests. by rewrite Hsrv, Hdsk.
Qed.

Lemma export_aborts_on_refused_write_witness :
  export_pdfs exporter0
    ([invoice_of "A" "2024-01-05"] ++ invoice_of "x/y" "2024-01-05"
       :: [invoice_of "C" "2024-01-06"]) "out"
    {| server := pdf_server; disk := flat_dir; sent := []; stdout := []; written := [] |}
  = (Raise (OSError "No such file or directory"),
     {| server := pdf_server; disk := flat_dir;
        sent := sent (snd (export_loop exporter0 "out" ∅ [invoice_of "A" "2024-01-05"]
                             {| server := pdf_server; disk := flat_dir; sent := [];
                                stdout := []; written := [] |}))
                ++ [pdf_request exporter0 (get (invoice_of "x/y" "2024-01-05") "id")];
        stdout := stdout (snd (export_loop exporter0 "out" ∅ [invoice_of "A" "2024-01-05"]
                                 {| server := pdf_server; disk := flat_dir; sent := [];
                                    stdout := []; written := [] |}));
        written := written (snd (export_loop exporter0 "out" ∅
                                   [invoice_of "A" "2024-01-05"]
                                   {| server := pdf_server; disk := flat_dir; sent := [];
                                      stdout := []; written := [] |})) |}).
Proof.
  apply (export_aborts_on_refused_write exporter0 "out" [invoice_of "A" "2024-01-05"]
           [invoice_of "C" "2024-01-06"] (invoice_of "x/y" "2024-01-05")
           {| server := pdf_server; disk := flat_dir; sent := []; stdout := []; written := [] |}
           {["2024-01-05" := 1]} (OSError "No such file or directory")).
  - vm_compute. reflexivity.
  - reflexivity.
  - eexists. split; reflexivity.
  - reflexivity.
Defined.

(** In a directory without subdirectories an identifier with a slash
    stops the export at its record: one file, two requests. *)
Example refused_write_ex :
  let run := export_pdfs exporter0
     [invoice_of "A" "2024-01-05"; invoice_of "x/y" "2024-01-05"; invoice_of "C" "2024-01-06"]
     "out" {| server := pdf_server; disk := flat_dir; sent := []; stdout := [];
              written := [] |} in
  fst run = Raise (OSError "No such file or directory")
  /\ names_written (snd run) = ["2024-01-05.pdf"]
  /\ length (sent (snd run)) = 2.
Proof. vm_compute. repeat split. Qed.

(** X10. A record whose [invoiceDate] member is present but falsy (null,
    the empty string, zero, false) is treated exactly like the same
    record without that member: no fetch, no file, the notice when it
    has an identifier. *)
Theorem falsy_date_as_missing (self : InvoiceExporter) (dir : string) (r : pydict) :
  truthy (get r "invoiceDate") = false ->
  (forall seen w, export_step self dir seen r w
                  = export_step self dir seen (delete "invoiceDate" r) w)
  /\ (forall seen w, fst (export_step self dir seen r w) = Ok seen
                     /\ sent (snd (export_step self dir seen r w)) = sent w
                     /\ written (snd (export_step self dir seen r w)) = written w)
  /\ (forall l1 l2 w,
        export_pdfs self (l1 ++ r :: l2) dir w
        = export_pdfs self (l1 ++ delete "invoiceDate" r :: l2) dir w).
Proof.
  intros Hd.
  assert (Hx : exported r = false).
  { unfold exported. rewrite Hd. apply andb_false_r. }
  assert (Hx' : exported (delete "invoiceDate" r) = false).
  { unfold exported, get. rewrite lookup_delete_eq. simpl. apply andb_false_r. }
  assert (Hu : undated (delete "invoiceDate" r) = undated r).
  { unfold undated, get. rewrite lookup_delete_eq, lookup_delete_ne by done.
    fold (get r "invoiceDate"). by rewrite Hd. }
  assert (Hid : get (delete "invoiceDate" r) "id" = get r "id").
  { unfold get. by rewrite lookup_delete_ne. }
  assert (Hstep : forall s w', export_step self dir s r w'
                               = export_step self dir s (delete "invoiceDate" r) w').
  { intros s w'. rewrite !export_step_skip by done. by rewrite Hu, Hid. }
  split; [done|]. split.
  - intros seen w. rewrite export_step_skip by done. by destruct (undated r).
  - intros l1 l2 w. unfold export_pdfs, bind.
    by rewrite (export_loop_swap self dir r (delete "invoiceDate" r) l1 l2 ∅ w Hstep).
Qed.

Lemma falsy_date_as_missing_witness :
  (forall seen w, export_step exporter0 "out" seen (invoice_of "A" "") w
                  = export_step exporter0 "out" seen
                      (delete "invoiceDate" (invoice_of "A" "")) w)
  /\ (forall seen w,
        fst (export_step exporter0 "out" seen (invoice_of "A" "") w) = Ok seen
        /\ sent (snd (export_step exporter0 "out" seen (invoice_of "A" "") w)) = sent w
        /\ written (snd (export_step exporter0 "out" seen (invoice_of "A" "") w)) = written w)
  /\ (forall l1 l2 w,
        export_pdfs exporter0 (l1 ++ invoice_of "A" "" :: l2) "out" w
        = export_pdfs exporter0 (l1 ++ delete "invoiceDate" (invoice_of "A" "") :: l2) "out" w).
Proof.
  apply (falsy_date_as_missing exporter0 "out" (invoice_of "A" "")).
  reflexivity.
Defined.

Lemma occurrences_cons b r l :
  occurrences b (r :: l)
  = (if exported r && String.eqb (base_name_of (get r "invoiceDate")) b then 1 else 0)
    + occurrences b l.
Proof.
  unfold occurrences. cbn [List.filter].
  by destruct (exported r && String.eqb (base_name_of (get r "invoiceDate")) b).
Qed.

Lemma export_loop_registry self dir l : forall seen w s w',
  export_loop self dir seen l w = (Ok s, w') ->
  forall b, default 0 (s !! b) = default 0 (seen !! b) + occurrences b l.
Proof.
  induction l as [|r l IH]; intros seen w s w' Hrun b.
  { injection Hrun as <- _. unfold occurrences. simpl. lia. }
  rewrite occurrences_cons. cbn [export_loop] in Hrun. unfold bind in Hrun.
  destruct (exported r) eqn:Hx.
  - destruct (export_step_exported self dir seen r w Hx)
      as [[e Hstep]|(resp & Hs & He & Hd & Hstep)]; rewrite Hstep in Hrun; [done|].
    rewrite (IH _ _ _ _ Hrun b). cbn [andb].
    destruct (String.eqb_spec (base_name_of (get r "invoiceDate")) b) as [->|Hne].
    + rewrite lookup_insert_eq. simpl. lia.
    + rewrite lookup_insert_ne by done. lia.
  - rewrite (export_step_skip _ _ _ _ _ Hx) in Hrun.
    rewrite (IH _ _ _ _ Hrun b). cbn [andb]. lia.
Qed.

Lemma export_loop_positive self dir l : forall s0 w0 s1 w1,
  export_loop self dir s0 l w0 = (Ok s1, w1) ->
  (forall b n, s0 !! b = Some n -> 0 < n) ->
  forall b n, s1 !! b = Some n -> 0 < n.
Proof.
  induction l as [|r l IH]; intros s0 w0 s1 w1 Hrun Hall b' n' Hl.
  - injection Hrun as <- _. by apply (Hall b').
  - cbn [export_loop] in Hrun. unfold bind in Hrun.
    destruct (exported r) eqn:Hx.
    + destruct (export_step_exported self dir s0 r w0 Hx)
        as [[e Hstep]|(resp & Hs & He & Hd & Hstep)]; rewrite Hstep in Hrun; [done|].
      apply (IH _ _ _ _ Hrun) with (b := b'); [|done].
      intros b2 n2 H2.
      destruct (decide (base_name_of (get r "invoiceDate") = b2)) as [<-|Hne].
      * rewrite lookup_insert_eq in H2. injection H2 as <-. lia.
      * rewrite lookup_insert_ne in H2 by done. by apply (Hall b2).
    + rewrite (export_step_skip _ _ _ _ _ Hx) in Hrun.
      by apply (IH _ _ _ _ Hrun Hall b').
Qed.

(** X11. The loop's registry counts occurrences: when the loop returns,
    its dictionary [seen] maps every base name to the number of exported
    records that produced it, and holds no other entry. *)
Theorem registry_counts_occurrences (self : InvoiceExporter) (dir : string)
    (invoices : list pydict) (w : world) (seen : gmap string nat) :
  fst (export_loop self dir ∅ invoices w) = Ok seen ->
  forall b,
    default 0 (seen !! b) = occurrences b invoices
    /\ (seen !! b = None <-> occurrences b invoices = 0).
Proof.
  intros Hrun b.
  destruct (export_loop self dir ∅ invoices w) as [o w'] eqn:Hloop.
  simpl in Hrun. subst o.
  pose proof (export_loop_registry self dir invoices ∅ w seen w' Hloop b) as Hb.
  rewrite lookup_empty in Hb. simpl in Hb. split; [done|].
  split; [by intros Hn; rewrite Hn in Hb|].
  intros Hz. destruct (seen !! b) as [n|] eqn:Hn; [|done]. exfalso.
  simpl in Hb. rewrite Hz in Hb.
  assert (0 < n); [|lia].
  apply (export_loop_positive self dir invoices ∅ w seen w' Hloop) with (b := b); [|done].
  intros b' n' H'. by rewrite lookup_empty in H'.
Qed.

Lemma registry_counts_occurrences_witness :
  default 0 (({["2024-01-05" := 2]} : gmap string nat) !! "2024-01-05")
  = occurrences "2024-01-05" [invoice_of "A" "2024-01-05"; invoice_of "" "2024-01-07";
                              invoice_of "B" "2024-01-05T10:00:00Z"]
  /\ (({["2024-01-05" := 2]} : gmap string nat) !! "2024-01-05" = None
      <-> occurrences "2024-01-05" [invoice_of "A" "2024-01-05"; invoice_of "" "2024-01-07";
                                    invoice_of "B" "2024-01-05T10:00:00Z"] = 0).
Proof.
  apply (registry_counts_occurrences exporter0 "out"
           [invoice_of "A" "2024-01-05"; invoice_of "" "2024-01-07";
            invoice_of "B" "2024-01-05T10:00:00Z"] (world_of pdf_server)).
  vm_compute. reflexivity.
Defined.

(** ** Characters of a file name *)

Lemma contains_append c s t : contains c (s +:+ t) = contains c s || contains c t.
Proof.
  induction s as [|a s IH]; [done|].
  rewrite append_cons_l. simpl. rewrite IH. by rewrite orb_assoc.
Qed.

Lemma contains_before_sep sep s : contains sep (Str.before sep s) = false.
Proof.
  induction s as [|a s IH]; [done|]. simpl.
  destruct (Ascii.eqb a sep) eqn:Ha; [done|]. simpl. by rewrite Ha, IH.
Qed.

Lemma contains_before c sep s :
  contains c s = false -> contains c (Str.before sep s) = false.
Proof.
  induction s as [|a s IH]; [done|]. simpl.
  intros [Ha Hs]%orb_false_elim.
  destruct (Ascii.eqb a sep); [done|]. simpl. by rewrite Ha, IH.
Qed.

Lemma contains_replace_old old new s :
  old <> new -> contains old (Str.replace old new s) = false.
Proof.
  intros Hne. induction s as [|a s IH]; [done|]. simpl. rewrite IH, orb_false_r.
  destruct (Ascii.eqb a old) eqn:Ha; [|done].
  apply Ascii.eqb_neq. by intros ->.
Qed.

Lemma contains_replace c old new s :
  c <> new -> contains c s = false -> contains c (Str.replace old new s) = false.
Proof.
  intros Hne. induction s as [|a s IH]; [done|]. simpl.
  intros [Ha Hs]%orb_false_elim. rewrite IH, orb_false_r by done.
  destruct (Ascii.eqb a old); [|done].
  apply Ascii.eqb_neq. by intros ->.
Qed.

Lemma base_name_chars (invoice_date : pyval) :
  contains "/" (base_name_of invoice_date) = false
  /\ contains ":" (base_name_of invoice_date) = false
  /\ contains " " (base_name_of invoice_date) = false
  /\ contains "T" (base_name_of invoice_date) = false.
Proof.
  unfold base_name_of. repeat split.
  - apply contains_replace; [done|]. by apply contains_replace_old.
  - by apply contains_replace_old.
  - apply contains_replace; [done|]. apply contains_replace; [done|].
    apply contains_before_sep.
  - apply contains_replace; [done|]. apply contains_replace; [done|].
    apply contains_before. apply contains_before_sep.
Qed.

(** X12. A base name never holds a slash, a colon, a space or a capital
    T, whatever the date value is. *)
Theorem base_name_is_clean (invoice_date : pyval) :
  contains "/" (base_name_of invoice_date) = false
  /\ contains ":" (base_name_of invoice_date) = false
  /\ contains " " (base_name_of invoice_date) = false
  /\ contains "T" (base_name_of invoice_date) = false.
Proof. exact (base_name_chars invoice_date). Qed.

(** X13. The identifier goes into a file name as it is: the name of a
    first occurrence never holds a slash, and the name of a later
    occurrence holds one exactly when the identifier's string form does. *)
Theorem filename_slash_from_identifier (invoice_date invoice_id : pyval) (count : nat) :
  contains "/" (filename_of (base_name_of invoice_date) count invoice_id)
  = negb (count =? 0)%nat && contains "/" (py_str invoice_id).
Proof.
  destruct (base_name_chars invoice_date) as [Hb _].
  unfold filename_of. destruct (count =? 0)%nat; simpl.
  - by rewrite contains_append, Hb.
  - rewrite !contains_append, Hb. simpl. by rewrite orb_false_r.
Qed.

(** An identifier with slashes leads the file out of the directory,
    when the file system accepts the path. *)
Example unsafe_identifier_ex :
  names_written (snd (export_pdfs exporter0
     [invoice_of "A" "2024-01-05"; invoice_of "../../etc/x" "2024-01-05"]
     "out" (world_of pdf_server)))
  = ["2024-01-05.pdf"; "2024-01-05-../../etc/x.pdf"].
Proof. reflexivity. Qed.

(** ** The login and the constructor *)

Lemma login_ok data_str url username password org_id key w resp :
  server w (length (sent w)) = Replies resp -> http_error resp = None ->
  _login data_str url username password org_id key w
  = (if truthy (get (members (json resp)) "sessionId")
     then Ok (get (members (json resp)) "sessionId")
     else Raise (RuntimeError (login_error_prefix +:+ data_str (json resp))),
     log_requests w [login_request url username password org_id key]).
Proof.
  intros Hs He. unfold _login, requests_post, requests_send, bind.
  rewrite Hs. unfold raise_for_status. rewrite He. simpl.
  by destruct (truthy (get (members (json resp)) "sessionId")).
Qed.

Lemma login_fail data_str url username password org_id key w e :
  fails_with (server w (length (sent w))) e ->
  _login data_str url username password org_id key w
  = (Raise e, log_requests w [login_request url username password org_id key]).
Proof.
  intros Hf. unfold _login, requests_post, requests_send, bind.
  destruct (server w (length (sent w))) as [d|resp]; simpl in Hf.
  - by subst e.
  - destruct Hf as (reason & He & ->). unfold raise_for_status. by rewrite He.
Qed.

(** X14. The login is a single attempt: whatever the server answers,
    [_login] sends exactly one request, a [POST] of [<base_url>/v3/login]
    with a 60 second timeout whose JSON body holds the four credentials
    and nothing else; it prints nothing and writes no file. *)
Theorem login_single_attempt (data_str : data -> string)
    (url username password org_id key : string) (w : world) :
  exists r,
    snd (_login data_str url username password org_id key w)
      = {| server := server w; disk := disk w; sent := sent w ++ [r];
           stdout := stdout w; written := written w |}
    /\ req_method r = POST
    /\ req_url r = url +:+ "/v3/login"
    /\ req_timeout r = 60%Z
    /\ req_headers r = ∅ /\ req_params r = ∅
    /\ req_json r !! "username" = Some (PStr username)
    /\ req_json r !! "password" = Some (PStr password)
    /\ req_json r !! "organizationId" = Some (PStr org_id)
    /\ req_json r !! "devKey" = Some (PStr key)
    /\ size (req_json r) = 4.
Proof.
  exists (login_request url username password org_id key). split.
  { destruct (reply_cases (server w (length (sent w)))) as [(resp & Hs & He)|[e Hf]].
    - by rewrite (login_ok _ _ _ _ _ _ _ _ Hs He).
    - by rewrite (login_fail _ _ _ _ _ _ _ _ Hf). }
  repeat split.
Qed.

(** X15. A failed login request decides the outcome before the body is
    looked at: when the transport raises or the status is an error,
    [_login] raises that failure, whatever the body holds. *)
Theorem login_request_failure (data_str : data -> string)
    (url username password org_id key : string) (w : world) (e : exn) :
  fails_with (server w (length (sent w))) e ->
  fst (_login data_str url username password org_id key w) = Raise e.
Proof. intros Hf. by rewrite (login_fail _ _ _ _ _ _ _ _ Hf). Qed.

Lemma login_request_failure_witness :
  fst (_login (fun _ => "{...}") BASE_URL "u" "p" "008" "k" (world_of rejected_login))
  = Raise (HTTPError "401 Unauthorized").
Proof.
  apply (login_request_failure (fun _ => "{...}") BASE_URL "u" "p" "008" "k"
           (world_of rejected_login) (HTTPError "401 Unauthorized")).
  simpl. eexists. split; reflexivity.
Defined.

(** X16. A constructed exporter always holds a truthy session token:
    when [__init__] returns, the login reply had a success status, the
    exporter's session token is that reply's [sessionId] member,
    whatever its JSON type, and is truthy; its developer key is the one
    passed in, and its two base URLs are the class constants. *)
Theorem init_holds_session (data_str : data -> string)
    (username password org_id key : string) (w : world) (self : InvoiceExporter) :
  fst (init data_str username password org_id key w) = Ok self ->
  truthy (session_id self) = true
  /\ dev_key self = key
  /\ base_url self = BASE_URL
  /\ pdf_base_url self = PDF_BASE_URL
  /\ exists resp,
       server w (length (sent w)) = Replies resp
       /\ http_error resp = None
       /\ session_id self = get (members (json resp)) "sessionId".
Proof.
  unfold init, bind. intros Hrun.
  destruct (reply_cases (server w (length (sent w)))) as [(resp & Hs & He)|[e Hf]].
  - rewrite (login_ok _ _ _ _ _ _ _ _ Hs He) in Hrun.
    destruct (truthy (get (members (json resp)) "sessionId")) eqn:Ht; [|done].
    simpl in Hrun. injection Hrun as <-. simpl.
    repeat split; try done. by exists resp.
  - by rewrite (login_fail _ _ _ _ _ _ _ _ Hf) in Hrun.
Qed.

Lemma init_holds_session_witness :
  truthy (session_id {| base_url := BASE_URL; pdf_base_url := PDF_BASE_URL;
                        dev_key := "k"; session_id := PStr "s-123" |}) = true
  /\ dev_key {| base_url := BASE_URL; pdf_base_url := PDF_BASE_URL;
                dev_key := "k"; session_id := PStr "s-123" |} = "k"
  /\ base_url {| base_url := BASE_URL; pdf_base_url := PDF_BASE_URL;
                 dev_key := "k"; session_id := PStr "s-123" |} = BASE_URL
  /\ pdf_base_url {| base_url := BASE_URL; pdf_base_url := PDF_BASE_URL;
                     dev_key := "k"; session_id := PStr "s-123" |} = PDF_BASE_URL
  /\ exists resp,
       server (world_of (login_server good_session_body))
         (length (sent (world_of (login_server good_session_body)))) = Replies resp
       /\ http_error resp = None
       /\ session_id {| base_url := BASE_URL; pdf_base_url := PDF_BASE_URL;
                        dev_key := "k"; session_id := PStr "s-123" |}
          = get (members (json resp)) "sessionId".
Proof.
  apply (init_holds_session (fun _ => "{...}") "u" "p" "008" "k"
           (world_of (login_server good_session_body))).
  reflexivity.
Defined.

(** The token is taken as it comes: a number is accepted. *)
Example numeric_session_ex :
  fst (init toy_data_str "u" "p" "008" "k"
         (world_of (login_server
            {| members := {["sessionId" := PInt 123]}; results_member := None |})))
  = Ok {| base_url := BASE_URL; pdf_base_url := PDF_BASE_URL;
          dev_key := "k"; session_id := PInt 123 |}.
Proof. reflexivity. Qed.

(** ** main *)

(** A whole run of [main]. *)
Example main_full_run_ex :
  let run := main toy_data_str toy_strptime toy_strftime toy_dumps toy_path_str
               5 january full_env (world_of full_run_server) in
  fst run = Finished
  /\ names_written (snd run)
     = ["bill_invoices_2024-01-01_to_2024-02-01.json"; "2024-01-05.pdf"; "2024-01-05-C.pdf"]
  /\ stdout (snd run)
     = ["Skipping invoice B (missing invoiceDate).";
        "Fetched 3 invoices in from 2024-01-01 to 2024-02-01.";
        "Wrote: invoices/bill_invoices_2024-01-01_to_2024-02-01.json"]
  /\ length (sent (snd run)) = 5.
Proof. vm_compute. repeat split. Qed.

Lemma init_world data_str username password org_id key w :
  snd (init data_str username password org_id key w)
  = log_requests w [login_request BASE_URL username password org_id key].
Proof.
  unfold init, bind.
  destruct (reply_cases (server w (length (sent w)))) as [(resp & Hs & He)|[e Hf]].
  - rewrite (login_ok _ _ _ _ _ _ _ _ Hs He).
    by destruct (truthy (get (members (json resp)) "sessionId")).
  - by rewrite (login_fail _ _ _ _ _ _ _ _ Hf).
Qed.

Lemma list_world fuel self start_date end_date w :
  exists reqs,
    snd (list_invoices_created_between fuel self start_date end_date w)
    = log_requests w reqs.
Proof.
  unfold list_invoices_created_between.
  destruct (list_loop_trace fuel (base_url self +:+ "/v3/invoices") (list_headers self)
              (filter_expr start_date end_date) [] PNone w) as (reqs & Hw & _).
  by exists reqs.
Qed.

(** The files of a run of the loop come after those already written. *)
Lemma export_loop_appends self dir l : forall seen w,
  exists rest, written (snd (export_loop self dir seen l w)) = written w ++ rest.
Proof.
  induction l as [|r l IH]; intros seen w.
  { exists []. simpl. by rewrite app_nil_r. }
  cbn [export_loop]. unfold bind.
  destruct (exported r) eqn:Hx.
  - destruct (export_step_exported self dir seen r w Hx)
      as [[e Hstep]|(resp & Hs & He & Hd & Hstep)]; rewrite Hstep; cbv beta iota.
    + exists []. simpl. by rewrite app_nil_r.
    + match goal with |- context [export_loop self dir ?s l ?w1] =>
        destruct (IH s w1) as (rest & Hrest) end.
      rewrite Hrest. cbn [written]. rewrite <- app_assoc. by eexists.
  - rewrite (export_step_skip _ _ _ _ _ Hx). cbv beta iota.
    destruct (undated r).
    + destruct (IH seen (log_line w (skip_notice (get r "id")))) as (rest & Hrest).
      by exists rest.
    + apply IH.
Qed.

Lemma main_missing_vars (env : gmap string string) :
  map fst (List.filter (fun kv : string * string => String.eqb (snd kv) "")
             [("BILL_USERNAME", getenv env "BILL_USERNAME" "");
              ("BILL_PASSWORD", getenv env "BILL_PASSWORD" "");
              ("BILL_ORG_ID", getenv env "BILL_ORG_ID" "");
              ("BILL_DEV_KEY", getenv env "BILL_DEV_KEY" "")])
  = missing_vars env.
Proof.
  unfold missing_vars, credentials. cbn [List.filter snd].
  destruct (String.eqb (getenv env "BILL_USERNAME" "") "");
    destruct (String.eqb (getenv env "BILL_PASSWORD" "") "");
    destruct (String.eqb (getenv env "BILL_ORG_ID" "") "");
    destruct (String.eqb (getenv env "BILL_DEV_KEY" "") ""); reflexivity.
Qed.

Lemma export_then_print self invoices dir w line1 line2 :
  let run := (let! _ := export_pdfs self invoices dir in
              let! _ := print line1 in
              print line2) w in
  written (snd run) = written (snd (export_pdfs self invoices dir w))
  /\ sent (snd run) = sent (snd (export_pdfs self invoices dir w))
  /\ (fst run = Ok tt <-> fst (export_pdfs self invoices dir w) = Ok tt)
  /\ (fst (export_pdfs self invoices dir w) = Ok tt ->
      stdout (snd run) = stdout (snd (export_pdfs self invoices dir w)) ++ [line1; line2]).
Proof.
  cbv zeta. unfold bind, print.
  destruct (export_pdfs self invoices dir w) as [[[]| |] w1]; simpl.
  - repeat split; try done; try (by rewrite <- app_assoc).
  - repeat split; done.
  - repeat split; done.
Qed.

(** The files an export run writes come after those already written,
    under a prefix of the names the policy assigns. *)
Lemma export_pdfs_appends self invoices dir w :
  exists rest k,
    written (snd (export_pdfs self invoices dir w)) = written w ++ rest
    /\ map (fun f => name (fst f)) rest = take k (named_by stripped_base_name [] invoices)
    /\ (fst (export_pdfs self invoices dir w) = Ok tt ->
        map (fun f => name (fst f)) rest = named_by stripped_base_name [] invoices).
Proof.
  destruct (export_pdfs_loop self invoices dir w) as [Hsnd Hfst].
  destruct (export_loop_appends self dir invoices ∅ w) as (rest & Hrest).
  destruct (export_loop_names self dir invoices ∅ w) as (k & Hk & Hok).
  rewrite (assigned_names_named_by invoices ∅ [] registry_of_empty) in Hk, Hok.
  unfold names_written in Hk, Hok. rewrite Hrest, map_app in Hk.
  apply app_inv_head in Hk.
  exists rest, k. rewrite Hsnd. split; [done|]. split; [done|].
  intros H. apply Hfst in H as [s Hs]. specialize (Hok s Hs).
  rewrite Hrest, map_app in Hok. by apply app_inv_head in Hok.
Qed.

Section MainProofs.

Variable data_str : data -> string.
Variable strptime : string -> string + Z.
Variable strftime : Z -> string.
Variable json_dumps : list pydict -> string.
Variable path_str : path -> string.

Lemma main_bad_start fuel args env w msg :
  strptime (args_start_date args) = inl msg ->
  main data_str strptime strftime json_dumps path_str fuel args env w
  = (Uncaught (Exn (ValueError msg)), w).
Proof. intros Hs. unfold main. by rewrite Hs. Qed.

Lemma main_bad_end fuel args env w s msg :
  strptime (args_start_date args) = inr s ->
  strptime (args_end_date args) = inl msg ->
  main data_str strptime strftime json_dumps path_str fuel args env w
  = (Uncaught (Exn (ValueError msg)), w).
Proof. intros Hs He. unfold main. by rewrite Hs, He. Qed.

Lemma main_bad_order fuel args env w s e :
  strptime (args_start_date args) = inr s ->
  strptime (args_end_date args) = inr e ->
  (e <= s)%Z ->
  main data_str strptime strftime json_dumps path_str fuel args env w
  = (Uncaught (Exn (ValueError "start-date must be earlier than end-date.")), w).
Proof.
  intros Hs He Hle. unfold main. rewrite Hs, He.
  destruct (s >=? e)%Z eqn:Hge; [done|].
  rewrite Z.geb_leb in Hge. apply Z.leb_gt in Hge. lia.
Qed.

Lemma main_missing fuel args env w s e :
  strptime (args_start_date args) = inr s ->
  strptime (args_end_date args) = inr e ->
  (s < e)%Z ->
  missing_vars env <> [] ->
  main data_str strptime strftime json_dumps path_str fuel args env w
  = (Uncaught (Exn (RuntimeError
       ("Missing env vars in .env: " +:+ join ", " (missing_vars env)))), w).
Proof.
  intros Hs He Hlt Hm. unfold main. rewrite Hs, He.
  destruct (s >=? e)%Z eqn:Hge; [apply Z.geb_le in Hge; lia|].
  cbv zeta. rewrite main_missing_vars. by destruct (missing_vars env).
Qed.

(** [main] once its checks have passed. *)
Lemma main_checked fuel args env w s e :
  strptime (args_start_date args) = inr s ->
  strptime (args_end_date args) = inr e ->
  (s < e)%Z ->
  missing_vars env = [] ->
  main data_str strptime strftime json_dumps path_str fuel args env w =
    let run :=
      (let! exporter := init data_str (getenv env "BILL_USERNAME" "")
                          (getenv env "BILL_PASSWORD" "") (getenv env "BILL_ORG_ID" "")
                          (getenv env "BILL_DEV_KEY" "") in
       let! invoices :=
         list_invoices_created_between fuel exporter (strftime s) (strftime e) in
       let! _ := mkdir (args_out_dir args) in
       let! _ := write_text (metadata_path (args_out_dir args) (strftime s) (strftime e))
                   (json_dumps invoices) in
       let! _ := export_pdfs exporter invoices (args_out_dir args) in
       let! _ := print ("Fetched " +:+ pretty (length invoices)
                        +:+ " invoices in from " +:+ strftime s
                        +:+ " to " +:+ strftime e +:+ ".") in
       print ("Wrote: " +:+ path_str
                (metadata_path (args_out_dir args) (strftime s) (strftime e)))) w in
    (ending_of (fst run), snd run).
Proof.
  intros Hs He Hlt Hm. unfold main. rewrite Hs, He.
  destruct (s >=? e)%Z eqn:Hge; [apply Z.geb_le in Hge; lia|].
  cbv zeta. rewrite main_missing_vars, Hm. reflexivity.
Qed.

(** X17. [main] checks its dates before anything else: when a date does
    not parse it raises the [ValueError] of [strptime], and when the
    start date is not earlier than the end date it raises a
    [ValueError] saying so; in each case no request has been sent,
    nothing printed and no file written. *)
Theorem main_checks_dates_first (fuel : nat) (args : Namespace)
    (env : gmap string string) (w : world) :
  (forall msg, strptime (args_start_date args) = inl msg ->
     main data_str strptime strftime json_dumps path_str fuel args env w
     = (Uncaught (Exn (ValueError msg)), w))
  /\ (forall s msg, strptime (args_start_date args) = inr s ->
       strptime (args_end_date args) = inl msg ->
       main data_str strptime strftime json_dumps path_str fuel args env w
       = (Uncaught (Exn (ValueError msg)), w))
  /\ (forall s e, strptime (args_start_date args) = inr s ->
       strptime (args_end_date args) = inr e -> (e <= s)%Z ->
       main data_str strptime strftime json_dumps path_str fuel args env w
       = (Uncaught (Exn (ValueError "start-date must be earlier than end-date.")), w)).
Proof.
  split; [|split].
  - intros msg Hs. by apply main_bad_start.
  - intros s msg Hs He. by apply (main_bad_end _ _ _ _ s).
  - intros s e Hs He Hle. by apply (main_bad_order _ _ _ _ s e).
Qed.

(** X18. With well-ordered dates, [main] stops on missing credentials
    before any request: when one of the four variables is unset or
    empty it raises a [RuntimeError] that names exactly the missing
    ones, in the order user name, password, organisation, developer
    key, separated by a comma and a space; the world is untouched. *)
Theorem main_checks_credentials_first (fuel : nat) (args : Namespace)
    (env : gmap string string) (w : world) (s e : Z) :
  strptime (args_start_date args) = inr s ->
  strptime (args_end_date args) = inr e ->
  (s < e)%Z ->
  missing_vars env <> [] ->
  main data_str strptime strftime json_dumps path_str fuel args env w
  = (Uncaught (Exn (RuntimeError
       ("Missing env vars in .env: " +:+ join ", " (missing_vars env)))), w)
  /\ (forall k, k ∈ missing_vars env <->
        k ∈ credentials /\ (env !! k = None \/ env !! k = Some "")).
Proof.
  intros Hs He Hlt Hm. split; [by apply (main_missing _ _ _ _ s e)|].
  intros k. unfold missing_vars. rewrite list_elem_of_In, filter_In, <- list_elem_of_In.
  unfold getenv. split.
  - intros [Hk Hv]. split; [done|]. apply String.eqb_eq in Hv.
    destruct (env !! k) as [v|]; [right; simpl in Hv; by subst|by left].
  - intros [Hk [Hv|Hv]]; (split; [done|]); rewrite Hv; done.
Qed.

End MainProofs.

Lemma main_checks_credentials_first_witness :
  main toy_data_str toy_strptime toy_strftime toy_dumps toy_path_str
    5 january partial_env (world_of full_run_server)
  = (Uncaught (Exn (RuntimeError
       ("Missing env vars in .env: " +:+ join ", " (missing_vars partial_env)))),
     world_of full_run_server)
  /\ (forall k, k ∈ missing_vars partial_env <->
        k ∈ credentials /\ (partial_env !! k = None \/ partial_env !! k = Some "")).
Proof.
  apply (main_checks_credentials_first toy_data_str toy_strptime toy_strftime toy_dumps
           toy_path_str 5 january partial_env (world_of full_run_server)
           738886%Z 738917%Z).
  - reflexivity.
  - reflexivity.
  - lia.
  - discriminate.
Defined.

(** The message for a missing password and developer key. *)
Example missing_credentials_ex :
  fst (main toy_data_str toy_strptime toy_strftime toy_dumps toy_path_str
         5 january partial_env (world_of full_run_server))
  = Uncaught (Exn (RuntimeError "Missing env vars in .env: BILL_PASSWORD, BILL_DEV_KEY")).
Proof. reflexivity. Qed.

Lemma write_text_ok p text w :
  disk w (length (written w)) p = None ->
  write_text p text w
  = (Ok tt, {| server := server w; disk := disk w; sent := sent w; stdout := stdout w;
               written := written w ++ [(p, utf8 text)] |}).
Proof. intros H. unfold write_text, write_bytes. by rewrite H. Qed.

Lemma write_text_fail p text w e :
  disk w (length (written w)) p = Some e -> write_text p text w = (Raise e, w).
Proof. intros H. unfold write_text, write_bytes. by rewrite H. Qed.

Lemma bind_ok {A B} (m : M A) (k : A -> M B) w a w' :
  m w = (Ok a, w') -> bind m k w = k a w'.
Proof. intros H. unfold bind. by rewrite H. Qed.

Lemma bind_raise {A B} (m : M A) (k : A -> M B) w e w' :
  m w = (Raise e, w') -> bind m k w = (Raise e, w').
Proof. intros H. unfold bind. by rewrite H. Qed.

Lemma bind_unfinished {A B} (m : M A) (k : A -> M B) w w' :
  m w = (Unfinished, w') -> bind m k w = (Unfinished, w').
Proof. intros H. unfold bind. by rewrite H. Qed.

Section MainRun.

Variable data_str : data -> string.
Variable strptime : string -> string + Z.
Variable strftime : Z -> string.
Variable json_dumps : list pydict -> string.
Variable path_str : path -> string.

(** X19. The metadata file comes first: in every run of [main] either
    nothing is written at all, or the login and the listing succeeded
    and the first file written is [bill_invoices_<start>_to_<end>.json]
    in the output directory, holding the UTF-8 of the dumped listing;
    every file after it is a PDF of the export, named by the collision
    policy.  A failed login or listing leaves no file behind. *)
Theorem main_metadata_first (fuel : nat) (args : Namespace)
    (env : gmap string string) (w : world) (s e : Z) :
  strptime (args_start_date args) = inr s ->
  strptime (args_end_date args) = inr e ->
  written (snd (main data_str strptime strftime json_dumps path_str fuel args env w))
    = written w
  \/ exists self invoices rest k,
       fst (init data_str (getenv env "BILL_USERNAME" "") (getenv env "BILL_PASSWORD" "")
              (getenv env "BILL_ORG_ID" "") (getenv env "BILL_DEV_KEY" "") w) = Ok self
       /\ fst (list_invoices_created_between fuel self (strftime s) (strftime e)
                 (snd (init data_str (getenv env "BILL_USERNAME" "")
                         (getenv env "BILL_PASSWORD" "") (getenv env "BILL_ORG_ID" "")
                         (getenv env "BILL_DEV_KEY" "") w))) = Ok invoices
       /\ written (snd (main data_str strptime strftime json_dumps path_str fuel args env w))
          = written w
            ++ (metadata_path (args_out_dir args) (strftime s) (strftime e),
                utf8 (json_dumps invoices)) :: rest
       /\ map (fun f => name (fst f)) rest
          = take k (named_by stripped_base_name [] invoices).
Proof.
  intros Hs He.
  destruct (decide (e <= s)%Z) as [Hle|Hgt].
  { left. by rewrite (main_bad_order _ _ _ _ _ _ _ _ _ _ _ Hs He Hle). }
  destruct (missing_vars env) as [|k0 ks] eqn:Hm.
  2:{ left. rewrite (main_missing _ _ _ _ _ fuel args env w s e Hs He); [done|lia|].
      by rewrite Hm. }
  rewrite (main_checked _ _ _ _ _ fuel args env w s e Hs He) by (done || lia).
  cbv zeta. cbn [snd].
  pose proof (init_world data_str (getenv env "BILL_USERNAME" "")
                (getenv env "BILL_PASSWORD" "") (getenv env "BILL_ORG_ID" "")
                (getenv env "BILL_DEV_KEY" "") w) as Hw1.
  destruct (init data_str (getenv env "BILL_USERNAME" "") (getenv env "BILL_PASSWORD" "")
              (getenv env "BILL_ORG_ID" "") (getenv env "BILL_DEV_KEY" "") w)
    as [o1 w1] eqn:Hinit.
  simpl in Hw1. destruct o1 as [self| |].
  2:{ left. rewrite (bind_raise _ _ _ _ _ Hinit). simpl. by rewrite Hw1. }
  2:{ left. rewrite (bind_unfinished _ _ _ _ Hinit). simpl. by rewrite Hw1. }
  rewrite (bind_ok _ _ _ _ _ Hinit). cbn [fst snd].
  destruct (list_world fuel self (strftime s) (strftime e) w1) as [reqs Hw2].
  destruct (list_invoices_created_between fuel self (strftime s) (strftime e) w1)
    as [o2 w2] eqn:Hlist.
  simpl in Hw2. destruct o2 as [invoices| |].
  2:{ left. rewrite (bind_raise _ _ _ _ _ Hlist). simpl. by rewrite Hw2, Hw1. }
  2:{ left. rewrite (bind_unfinished _ _ _ _ Hlist). simpl. by rewrite Hw2, Hw1. }
  rewrite (bind_ok _ _ _ _ _ Hlist).
  rewrite (bind_ok (mkdir (args_out_dir args)) _ w2 tt w2) by done.
  destruct (disk w2 (length (written w2))
              (metadata_path (args_out_dir args) (strftime s) (strftime e)))
    as [err|] eqn:Hd.
  { left. rewrite (bind_raise _ _ _ _ _ (write_text_fail _ _ _ _ Hd)).
    simpl. by rewrite Hw2, Hw1. }
  rewrite (bind_ok _ _ _ _ _ (write_text_ok _ (json_dumps invoices) _ Hd)).
  right. exists self, invoices.
  match goal with |- context [(bind (export_pdfs self invoices ?d) ?kk) ?w3] =>
    destruct (export_then_print self invoices d w3
                ("Fetched " +:+ pretty (length invoices) +:+ " invoices in from "
                 +:+ strftime s +:+ " to " +:+ strftime e +:+ ".")
                ("Wrote: " +:+ path_str
                   (metadata_path (args_out_dir args) (strftime s) (strftime e))))
      as (Hwr & _);
    destruct (export_pdfs_appends self invoices d w3) as (rest & k & Hrest & Hnames & _)
  end.
  cbv zeta in Hwr. exists rest, k.
  split; [done|]. split; [by rewrite Hlist|]. split; [|done].
  unfold metadata_path in *. rewrite Hwr, Hrest. cbn [written].
  rewrite Hw2, Hw1. cbn [log_requests written]. by rewrite <- app_assoc.
Qed.

End MainRun.

Lemma main_metadata_first_witness :
  written (snd (main toy_data_str toy_strptime toy_strftime toy_dumps toy_path_str
                  5 january full_env (world_of full_run_server)))
    = written (world_of full_run_server)
  \/ exists self invoices rest k,
       fst (init toy_data_str (getenv full_env "BILL_USERNAME" "")
              (getenv full_env "BILL_PASSWORD" "") (getenv full_env "BILL_ORG_ID" "")
              (getenv full_env "BILL_DEV_KEY" "") (world_of full_run_server)) = Ok self
       /\ fst (list_invoices_created_between 5 self (toy_strftime 738886)
                 (toy_strftime 738917)
                 (snd (init toy_data_str (getenv full_env "BILL_USERNAME" "")
                         (getenv full_env "BILL_PASSWORD" "")
                         (getenv full_env "BILL_ORG_ID" "")
                         (getenv full_env "BILL_DEV_KEY" "") (world_of full_run_server))))
          = Ok invoices
       /\ written (snd (main toy_data_str toy_strptime toy_strftime toy_dumps toy_path_str
                         5 january full_env (world_of full_run_server)))
          = written (world_of full_run_server)
            ++ (metadata_path (args_out_dir january) (toy_strftime 738886)
                  (toy_strftime 738917),
                utf8 (toy_dumps invoices)) :: rest
       /\ map (fun f => name (fst f)) rest
          = take k (named_by stripped_base_name [] invoices).
Proof.
  apply (main_metadata_first toy_data_str toy_strptime toy_strftime toy_dumps toy_path_str
           5 january full_env (world_of full_run_server) 738886%Z 738917%Z);
    reflexivity.
Defined.

Lemma export_pdfs_notices self invoices dir w :
  fst (export_pdfs self invoices dir w) = Ok tt ->
  stdout (snd (export_pdfs self invoices dir w))
  = stdout w ++ map (fun r => skip_notice (get r "id")) (List.filter undated invoices).
Proof.
  destruct (export_pdfs_loop self invoices dir w) as [Hsnd Hfst].
  destruct (export_loop_effects self dir invoices ∅ w) as (kr & kn & _ & Hout & _ & Hall).
  intros Hok. apply Hfst in Hok. destruct (Hall Hok) as [_ ->].
  rewrite Hsnd, Hout. f_equal. apply firstn_all2. by rewrite length_map.
Qed.

Section MainReport.

Variable data_str : data -> string.
Variable strptime : string -> string + Z.
Variable strftime : Z -> string.
Variable json_dumps : list pydict -> string.
Variable path_str : path -> string.

(** X20. What a finished run of [main] leaves behind: both dates
    parsed, in order, no credential was missing, the login and the
    listing succeeded; the files written are the metadata file and then
    one PDF per exported record under the policy's names; the output is
    the notices of the export followed by two lines, of which the first
    counts all listed records (exported or skipped) and the second
    shows the metadata path. *)
Theorem main_finished_report (fuel : nat) (args : Namespace)
    (env : gmap string string) (w : world) :
  fst (main data_str strptime strftime json_dumps path_str fuel args env w) = Finished ->
  exists s e self invoices,
    strptime (args_start_date args) = inr s
    /\ strptime (args_end_date args) = inr e
    /\ (s < e)%Z
    /\ missing_vars env = []
    /\ fst (init data_str (getenv env "BILL_USERNAME" "") (getenv env "BILL_PASSWORD" "")
              (getenv env "BILL_ORG_ID" "") (getenv env "BILL_DEV_KEY" "") w) = Ok self
    /\ fst (list_invoices_created_between fuel self (strftime s) (strftime e)
              (snd (init data_str (getenv env "BILL_USERNAME" "")
                      (getenv env "BILL_PASSWORD" "") (getenv env "BILL_ORG_ID" "")
                      (getenv env "BILL_DEV_KEY" "") w))) = Ok invoices
    /\ names_written (snd (main data_str strptime strftime json_dumps path_str
                            fuel args env w))
       = names_written w
         ++ ("bill_invoices_" +:+ strftime s +:+ "_to_" +:+ strftime e +:+ ".json")
            :: named_by stripped_base_name [] invoices
    /\ stdout (snd (main data_str strptime strftime json_dumps path_str fuel args env w))
       = stdout w
         ++ map (fun r => skip_notice (get r "id")) (List.filter undated invoices)
         ++ ["Fetched " +:+ pretty (length invoices) +:+ " invoices in from "
             +:+ strftime s +:+ " to " +:+ strftime e +:+ ".";
             "Wrote: " +:+ path_str
               (metadata_path (args_out_dir args) (strftime s) (strftime e))].
Proof.
  intros Hfin.
  destruct (strptime (args_start_date args)) as [m1|s] eqn:Hs.
  { by rewrite (main_bad_start _ _ _ _ _ _ _ _ _ _ Hs) in Hfin. }
  destruct (strptime (args_end_date args)) as [m2|e] eqn:He.
  { by rewrite (main_bad_end _ _ _ _ _ _ _ _ _ _ _ Hs He) in Hfin. }
  destruct (decide (e <= s)%Z) as [Hle|Hgt].
  { by rewrite (main_bad_order _ _ _ _ _ _ _ _ _ _ _ Hs He Hle) in Hfin. }
  destruct (missing_vars env) as [|k0 ks] eqn:Hm.
  2:{ rewrite (main_missing _ _ _ _ _ fuel args env w s e Hs He) in Hfin; [done|lia|].
      by rewrite Hm. }
  exists s, e.
  rewrite (main_checked _ _ _ _ _ fuel args env w s e Hs He) in * by (done || lia).
  cbv zeta in *. cbn [fst snd] in *.
  pose proof (init_world data_str (getenv env "BILL_USERNAME" "")
                (getenv env "BILL_PASSWORD" "") (getenv env "BILL_ORG_ID" "")
                (getenv env "BILL_DEV_KEY" "") w) as Hw1.
  destruct (init data_str (getenv env "BILL_USERNAME" "") (getenv env "BILL_PASSWORD" "")
              (getenv env "BILL_ORG_ID" "") (getenv env "BILL_DEV_KEY" "") w)
    as [o1 w1] eqn:Hinit.
  simpl in Hw1. destruct o1 as [self| |].
  2:{ by rewrite (bind_raise _ _ _ _ _ Hinit) in Hfin. }
  2:{ by rewrite (bind_unfinished _ _ _ _ Hinit) in Hfin. }
  rewrite (bind_ok _ _ _ _ _ Hinit) in *. cbn [fst snd] in *.
  destruct (list_world fuel self (strftime s) (strftime e) w1) as [reqs Hw2].
  destruct (list_invoices_created_between fuel self (strftime s) (strftime e) w1)
    as [o2 w2] eqn:Hlist.
  simpl in Hw2. destruct o2 as [invoices| |].
  2:{ by rewrite (bind_raise _ _ _ _ _ Hlist) in Hfin. }
  2:{ by rewrite (bind_unfinished _ _ _ _ Hlist) in Hfin. }
  rewrite (bind_ok _ _ _ _ _ Hlist) in *.
  exists self, invoices.
  rewrite (bind_ok (mkdir (args_out_dir args)) _ w2 tt w2) in * by done.
  destruct (disk w2 (length (written w2))
              (metadata_path (args_out_dir args) (strftime s) (strftime e)))
    as [err|] eqn:Hd.
  { by rewrite (bind_raise _ _ _ _ _ (write_text_fail _ _ _ _ Hd)) in Hfin. }
  rewrite (bind_ok _ _ _ _ _ (write_text_ok _ (json_dumps invoices) _ Hd)) in *.
  match goal with |- context [(bind (export_pdfs self invoices ?d) ?kk) ?w3] =>
    destruct (export_then_print self invoices d w3
                ("Fetched " +:+ pretty (length invoices) +:+ " invoices in from "
                 +:+ strftime s +:+ " to " +:+ strftime e +:+ ".")
                ("Wrote: " +:+ path_str
                   (metadata_path (args_out_dir args) (strftime s) (strftime e))))
      as (Hwr & _ & Hiff & Hout);
    destruct (export_pdfs_appends self invoices d w3) as (rest & k & Hrest & _ & Hnames);
    pose proof (export_pdfs_notices self invoices d w3) as Hnotes
  end.
  cbv zeta in Hwr, Hiff, Hout.
  assert (Hok : fst (export_pdfs self invoices (args_out_dir args)
                       {| server := server w2; disk := disk w2; sent := sent w2; stdout := stdout w2;
                          written := written w2 ++
                            [(metadata_path (args_out_dir args) (strftime s) (strftime e),
                              utf8 (json_dumps invoices))] |}) = Ok tt).
  { apply Hiff.
    match type of Hfin with ending_of ?o = _ => by destruct o as [[]| |] end. }
  split; [done|]. split; [done|]. split; [lia|]. split; [done|].
  split; [done|]. split; [by rewrite Hlist|]. split.
  - unfold names_written. rewrite Hwr, Hrest, !map_app. cbn [written map fst name].
    rewrite (Hnames Hok), Hw2, Hw1. cbn [log_requests written].
    rewrite map_app. cbn [map fst name metadata_path]. by rewrite <- app_assoc.
  - rewrite (Hout Hok), (Hnotes Hok). cbn [stdout].
    rewrite Hw2, Hw1. cbn [log_requests stdout]. by rewrite <- app_assoc.
Qed.

End MainReport.

Lemma main_finished_report_witness :
  exists s e self invoices,
    toy_strptime (args_start_date january) = inr s
    /\ toy_strptime (args_end_date january) = inr e
    /\ (s < e)%Z
    /\ missing_vars full_env = []
    /\ fst (init toy_data_str (getenv full_env "BILL_USERNAME" "")
              (getenv full_env "BILL_PASSWORD" "") (getenv full_env "BILL_ORG_ID" "")
              (getenv full_env "BILL_DEV_KEY" "") (world_of full_run_server)) = Ok self
    /\ fst (list_invoices_created_between 5 self (toy_strftime s) (toy_strftime e)
              (snd (init toy_data_str (getenv full_env "BILL_USERNAME" "")
                      (getenv full_env "BILL_PASSWORD" "")
                      (getenv full_env "BILL_ORG_ID" "")
                      (getenv full_env "BILL_DEV_KEY" "") (world_of full_run_server))))
       = Ok invoices
    /\ names_written (snd (main toy_data_str toy_strptime toy_strftime toy_dumps
                            toy_path_str 5 january full_env (world_of full_run_server)))
       = names_written (world_of full_run_server)
         ++ ("bill_invoices_" +:+ toy_strftime s +:+ "_to_" +:+ toy_strftime e +:+ ".json")
            :: named_by stripped_base_name [] invoices
    /\ stdout (snd (main toy_data_str toy_strptime toy_strftime toy_dumps toy_path_str
                     5 january full_env (world_of full_run_server)))
       = stdout (world_of full_run_server)
         ++ map (fun r => skip_notice (get r "id")) (List.filter undated invoices)
         ++ ["Fetched " +:+ pretty (length invoices) +:+ " invoices in from "
             +:+ toy_strftime s +:+ " to " +:+ toy_strftime e +:+ ".";
             "Wrote: " +:+ toy_path_str
               (metadata_path (args_out_dir january) (toy_strftime s) (toy_strftime e))].
Proof.
  apply (main_finished_report toy_data_str toy_strptime toy_strftime toy_dumps toy_path_str
           5 january full_env (world_of full_run_server)).
  vm_compute. reflexivity.
Defined.

Lemma list_requests_form fuel self start_date end_date w :
  exists reqs,
    snd (list_invoices_created_between fuel self start_date end_date w)
      = log_requests w reqs
    /\ Forall (fun r => exists ps,
                 r = list_request (base_url self +:+ "/v3/invoices") (list_headers self) ps)
         reqs.
Proof.
  unfold list_invoices_created_between.
  destruct (list_loop_trace fuel (base_url self +:+ "/v3/invoices") (list_headers self)
              (filter_expr start_date end_date) [] PNone w)
    as (reqs & Hw & H0 & Hz & Hrest).
  exists reqs. split; [done|].
  apply Forall_lookup. intros i r Hi. destruct i as [|i].
  - destruct fuel as [|fuel]; [by rewrite Hz in Hi|].
    rewrite H0 in Hi by lia. injection Hi as <-. by eexists.
  - destruct (Hrest i r Hi) as (resp & _ & _ & _ & ->). by eexists.
Qed.

Lemma export_pdfs_requests self invoices dir w :
  exists reqs,
    sent (snd (export_pdfs self invoices dir w)) = sent w ++ reqs
    /\ Forall (fun r => exists id, r = pdf_request self id) reqs.
Proof.
  destruct (export_pdfs_loop self invoices dir w) as [Hsnd _].
  destruct (export_loop_effects self dir invoices ∅ w) as (kr & kn & Hsent & _).
  rewrite Hsnd, Hsent. eexists. split; [done|].
  apply Forall_take, Forall_map, Forall_forall. intros r _. by eexists.
Qed.

Section MainSession.

Variable data_str : data -> string.
Variable strptime : string -> string + Z.
Variable strftime : Z -> string.
Variable json_dumps : list pydict -> string.
Variable path_str : path -> string.

(** X21. One session for the whole run: once the checks of [main] have
    passed, its first request is the login with the four credentials of
    the environment, and when the login succeeds every later request,
    listing or PDF, is a [GET] that carries the session token the login
    returned. *)
Theorem main_requests_carry_session (fuel : nat) (args : Namespace)
    (env : gmap string string) (w : world) (s e : Z) :
  strptime (args_start_date args) = inr s ->
  strptime (args_end_date args) = inr e ->
  (s < e)%Z ->
  missing_vars env = [] ->
  exists reqs,
    sent (snd (main data_str strptime strftime json_dumps path_str fuel args env w))
    = sent w
      ++ login_request BASE_URL (getenv env "BILL_USERNAME" "")
           (getenv env "BILL_PASSWORD" "") (getenv env "BILL_ORG_ID" "")
           (getenv env "BILL_DEV_KEY" "") :: reqs
    /\ forall self,
         fst (init data_str (getenv env "BILL_USERNAME" "") (getenv env "BILL_PASSWORD" "")
                (getenv env "BILL_ORG_ID" "") (getenv env "BILL_DEV_KEY" "") w) = Ok self ->
         Forall (fun r => req_method r = GET
                          /\ req_headers r !! "sessionId" = Some (session_id self)) reqs.
Proof.
  intros Hs He Hlt Hm.
  rewrite (main_checked _ _ _ _ _ fuel args env w s e Hs He Hlt Hm).
  cbv zeta. cbn [fst snd].
  pose proof (init_world data_str (getenv env "BILL_USERNAME" "")
                (getenv env "BILL_PASSWORD" "") (getenv env "BILL_ORG_ID" "")
                (getenv env "BILL_DEV_KEY" "") w) as Hw1.
  destruct (init data_str (getenv env "BILL_USERNAME" "") (getenv env "BILL_PASSWORD" "")
              (getenv env "BILL_ORG_ID" "") (getenv env "BILL_DEV_KEY" "") w)
    as [o1 w1] eqn:Hinit.
  simpl in Hw1. destruct o1 as [self| |].
  2:{ exists []. rewrite (bind_raise _ _ _ _ _ Hinit). cbn [snd]. rewrite Hw1.
      split; [done|]. intros self Hself. done. }
  2:{ exists []. rewrite (bind_unfinished _ _ _ _ Hinit). cbn [snd]. rewrite Hw1.
      split; [done|]. intros self Hself. done. }
  rewrite (bind_ok _ _ _ _ _ Hinit).
  destruct (list_requests_form fuel self (strftime s) (strftime e) w1)
    as (lreqs & Hw2 & Hform).
  assert (Hlhead : Forall (fun r => req_method r = GET
                     /\ req_headers r !! "sessionId" = Some (session_id self)) lreqs).
  { eapply Forall_impl; [exact Hform|]. intros r [ps ->]. by split. }
  destruct (list_invoices_created_between fuel self (strftime s) (strftime e) w1)
    as [o2 w2] eqn:Hlist.
  simpl in Hw2. destruct o2 as [invoices| |].
  2:{ exists lreqs. rewrite (bind_raise _ _ _ _ _ Hlist). cbn [snd]. rewrite Hw2, Hw1.
      cbn [log_requests sent]. rewrite <- app_assoc.
      split; [done|]. intros self' Hself. simpl in Hself. by injection Hself as <-. }
  2:{ exists lreqs. rewrite (bind_unfinished _ _ _ _ Hlist). cbn [snd]. rewrite Hw2, Hw1.
      cbn [log_requests sent]. rewrite <- app_assoc.
      split; [done|]. intros self' Hself. simpl in Hself. by injection Hself as <-. }
  rewrite (bind_ok _ _ _ _ _ Hlist).
  rewrite (bind_ok (mkdir (args_out_dir args)) _ w2 tt w2) by done.
  destruct (disk w2 (length (written w2))
              (metadata_path (args_out_dir args) (strftime s) (strftime e)))
    as [err|] eqn:Hd.
  { exists lreqs. rewrite (bind_raise _ _ _ _ _ (write_text_fail _ _ _ _ Hd)).
    cbn [snd]. rewrite Hw2, Hw1. cbn [log_requests sent]. rewrite <- app_assoc.
    split; [done|]. intros self' Hself. simpl in Hself. by injection Hself as <-. }
  rewrite (bind_ok _ _ _ _ _ (write_text_ok _ (json_dumps invoices) _ Hd)).
  match goal with |- context [(bind (export_pdfs self invoices ?d) ?kk) ?w3] =>
    destruct (export_then_print self invoices d w3
                ("Fetched " +:+ pretty (length invoices) +:+ " invoices in from "
                 +:+ strftime s +:+ " to " +:+ strftime e +:+ ".")
                ("Wrote: " +:+ path_str
                   (metadata_path (args_out_dir args) (strftime s) (strftime e))))
      as (_ & Hse & _);
    destruct (export_pdfs_requests self invoices d w3) as (preqs & Hpreqs & Hpform)
  end.
  cbv zeta in Hse. exists (lreqs ++ preqs).
  unfold metadata_path in *. rewrite Hse, Hpreqs. cbn [sent].
  rewrite Hw2, Hw1. cbn [log_requests sent]. rewrite <- !app_assoc.
  split; [done|]. intros self' Hself. simpl in Hself. injection Hself as <-.
  apply Forall_app. split; [done|].
  eapply Forall_impl; [exact Hpform|]. intros r [id ->]. by split.
Qed.

End MainSession.

Lemma main_requests_carry_session_witness :
  exists reqs,
    sent (snd (main toy_data_str toy_strptime toy_strftime toy_dumps toy_path_str
                 5 january full_env (world_of full_run_server)))
    = sent (world_of full_run_server)
      ++ login_request BASE_URL (getenv full_env "BILL_USERNAME" "")
           (getenv full_env "BILL_PASSWORD" "") (getenv full_env "BILL_ORG_ID" "")
           (getenv full_env "BILL_DEV_KEY" "") :: reqs
    /\ forall self,
         fst (init toy_data_str (getenv full_env "BILL_USERNAME" "")
                (getenv full_env "BILL_PASSWORD" "") (getenv full_env "BILL_ORG_ID" "")
                (getenv full_env "BILL_DEV_KEY" "") (world_of full_run_server)) = Ok self ->
         Forall (fun r => req_method r = GET
                          /\ req_headers r !! "sessionId" = Some (session_id self)) reqs.
Proof.
  apply (main_requests_carry_session toy_data_str toy_strptime toy_strftime toy_dumps
           toy_path_str 5 january full_env (world_of full_run_server)
           738886%Z 738917%Z); reflexivity || lia.
Defined.
